(** * Generic repository and response envelope of the starter service

    A shallow embedding of [internal/model] (the generic repository
    [GenericRepo] with its query-option model) and of
    [internal/api/response] (the response envelope and the request-id
    lookup), together with the properties stated about them.

    Conventions.
    - Go's [int] is a 64-bit two's complement integer: values are [Z] and
      arithmetic goes through [wrap_int].
    - An interface value ([any]) is a small tagged union; [Nil] is the nil
      interface.
    - The relational store behind [*gorm.DB] is an explicit [World] that
      every finisher method threads through; builder methods only rewrite
      the statement carried by the handle.
    - A pointer to a repository is a location in a heap of repository
      values. *)

From Stdlib Require Import Ascii String ZArith.
From stdpp Require Import gmap strings list fin_maps.

Local Open Scope string_scope.
Local Open Scope Z_scope.

(** ** Go base types *)

Definition int_min : Z := - 2 ^ 63.
Definition int_max : Z := 2 ^ 63 - 1.

(** Two's complement wrap-around of Go's [int] (64 bit). *)
Definition wrap_int (z : Z) : Z := (z + 2 ^ 63) mod 2 ^ 64 - 2 ^ 63.

Definition is_int (z : Z) : Prop := int_min <= z <= int_max.

(** Go's [any]: the dynamic values the modelled code inspects. *)
Inductive any : Type :=
| Nil
| Str (s : string)
| Int (n : Z)
| Bool (b : bool).

#[global] Instance any_eq_dec : EqDecision any.
Proof. solve_decision. Defined.

(** The type assertion [v.(string)]. *)
Definition as_string (v : any) : option string :=
  match v with
  | Str s => Some s
  | _ => None
  end.

(** [context.Context], seen through [ctx.Value(key)]. *)
Abbreviation Context := (gmap string any).

Definition Value (ctx : Context) (key : string) : any :=
  default Nil (ctx !! key).

(** ** Errors *)

(** Go's non-nil [error] values that flow through the repository: the
    store's record-not-found sentinel, any other store error, and the
    domain error of [errorx]. A nil [error] is [None : option error]. *)
#[warnings="-register-all"]
Inductive error : Type :=
| ErrRecordNotFound
| StoreError (msg : string)
| DomainError (code : Z) (http : option Z) (msg : string) (cause : option error).

(** [err == gorm.ErrRecordNotFound]. *)
Definition is_ErrRecordNotFound (err : error) : bool :=
  match err with
  | ErrRecordNotFound => true
  | _ => false
  end.

(** [errors.Unwrap]. *)
Definition Unwrap (err : error) : option error :=
  match err with
  | DomainError _ _ _ cause => cause
  | _ => None
  end.

(** The optional capability [interface{ Code() int }]. *)
Definition error_Code (err : error) : option Z :=
  match err with
  | DomainError code _ _ _ => Some code
  | _ => None
  end.

(** The optional capability [interface{ HttpStatus() int }]. *)
Definition error_HttpStatus (err : error) : option Z :=
  match err with
  | DomainError _ http _ _ => http
  | _ => None
  end.

(** [err.Error()]. *)
Definition error_Error (err : error) : string :=
  match err with
  | ErrRecordNotFound => "record not found"
  | StoreError msg => msg
  | DomainError _ _ msg _ => msg
  end.

Module errspec.

(** Modelled from the spec: the error specifications of
    [internal/errspec] and the domain error of [internal/pkg/errorx] are
    not part of the sources at hand. A specification carries the stable
    numeric code, the optional HTTP status and the message; [New] builds
    the domain error from it and [Wrap] records the underlying cause. *)
Record ErrorSpec : Type := {
  spec_code : Z;
  spec_http : option Z;
  spec_msg : string;
}.

Definition Code (s : ErrorSpec) : Z := spec_code s.

Definition New (s : ErrorSpec) (ctx : Context) : error :=
  DomainError (spec_code s) (spec_http s) (spec_msg s) None.

Definition Wrap (e : error) (cause : error) : error :=
  match e with
  | DomainError code http msg _ => DomainError code http msg (Some cause)
  | _ => e
  end.

(** The four specifications the modelled code refers to. *)
Record Table : Type := {
  ErrUnknown : ErrorSpec;
  ErrNotFound : ErrorSpec;
  ErrRecordNotExist : ErrorSpec;
  ErrQueryParamEmpty : ErrorSpec;
}.

End errspec.

(** ** The store: a model of the part of gorm the repository uses *)

Module gorm.

(** A condition of the WHERE clause: an expression in the store's own
    syntax with its positional arguments ([Where(cond, args...)]), or the
    primary-key condition that [First(&entity, id)] builds from its
    inline argument. *)
Inductive Cond : Type :=
| Expr (sql : string) (args : list any)
| PrimaryKey (id : any).

(** The clauses of a statement. Conditions accumulate (they are ANDed).
    [Limit] and [Offset] are the two parts of the LIMIT clause, which is
    absent while both are [None]; a new LIMIT clause is merged with the
    one the statement has (see [merge_limit]). *)
Record Clauses : Type := {
  Wheres : list Cond;
  Orders : list string;
  Offset : option Z;
  Limit : option Z;
  Locking : option string;
}.

Record Statement : Type := {
  Model : bool;
  Preloads : list string;
  clauses : Clauses;
}.

(** A connection: the pool, or the transaction with the given number. *)
Inductive Conn : Type :=
| Pool
| Tx (id : nat).

#[global] Instance Conn_eq_dec : EqDecision Conn.
Proof. solve_decision. Defined.

(** The handle [*gorm.DB]: connection, context and statement under
    construction. *)
Record DB : Type := {
  conn : Conn;
  ctx : Context;
  stmt : Statement;
}.

Definition no_clauses : Clauses :=
  {| Wheres := []; Orders := []; Offset := None; Limit := None;
     Locking := None |}.

Definition no_statement : Statement :=
  {| Model := false; Preloads := []; clauses := no_clauses |}.

(** A freshly opened handle on the pool. *)
Definition Open : DB :=
  {| conn := Pool; ctx := ∅; stmt := no_statement |}.

(** *** Builder methods: they return a handle with a longer statement *)

Definition with_stmt (db : DB) (s : Statement) : DB :=
  {| conn := conn db; ctx := ctx db; stmt := s |}.

Definition with_clauses (db : DB) (c : Clauses) : DB :=
  with_stmt db
    {| Model := Model (stmt db); Preloads := Preloads (stmt db);
       clauses := c |}.

Definition WithContext (c : Context) (db : DB) : DB :=
  {| conn := conn db; ctx := c; stmt := stmt db |}.

Definition SetModel (db : DB) : DB :=
  with_stmt db
    {| Model := true; Preloads := Preloads (stmt db);
       clauses := clauses (stmt db) |}.

Definition Preload (name : string) (db : DB) : DB :=
  with_stmt db
    {| Model := Model (stmt db);
       Preloads := Preloads (stmt db) ++ [name];
       clauses := clauses (stmt db) |}.

Definition add_where (c : Cond) (cs : Clauses) : Clauses :=
  {| Wheres := Wheres cs ++ [c]; Orders := Orders cs;
     Offset := Offset cs; Limit := Limit cs; Locking := Locking cs |}.

(** [clause.Limit.MergeClause]: the LIMIT clause with the given limit and
    offset joins the statement. Where the statement has a LIMIT clause
    already, a missing or zero limit keeps the earlier limit, a zero
    offset keeps an earlier positive offset, and a negative offset becomes
    zero. *)
Definition merge_limit (limit : option Z) (offset : Z) (cs : Clauses)
    : Clauses :=
  let merged :=
    match Limit cs, Offset cs with
    | None, None => (limit, offset)
    | earlier, earlier_offset =>
        (match limit, earlier with
         | None, Some _ => earlier
         | Some 0, Some _ => earlier
         | _, _ => limit
         end,
         if bool_decide (offset = 0 /\ 0 < default 0 earlier_offset)
         then default 0 earlier_offset
         else if bool_decide (offset < 0) then 0 else offset)
    end in
  {| Wheres := Wheres cs; Orders := Orders cs;
     Offset := Some (snd merged); Limit := fst merged;
     Locking := Locking cs |}.

(** [Offset(n)] adds [clause.Limit{Offset: n}]. *)
Definition set_offset (n : Z) (cs : Clauses) : Clauses :=
  merge_limit None n cs.

(** [Limit(n)] adds [clause.Limit{Limit: &n}]. *)
Definition set_limit (n : Z) (cs : Clauses) : Clauses :=
  merge_limit (Some n) 0 cs.

Definition add_order (o : string) (cs : Clauses) : Clauses :=
  {| Wheres := Wheres cs; Orders := Orders cs ++ [o];
     Offset := Offset cs; Limit := Limit cs; Locking := Locking cs |}.

Definition Where (sql : string) (args : list any) (db : DB) : DB :=
  with_clauses db (add_where (Expr sql args) (clauses (stmt db))).

Definition SetOffset (n : Z) (db : DB) : DB :=
  with_clauses db (set_offset n (clauses (stmt db))).

Definition SetLimit (n : Z) (db : DB) : DB :=
  with_clauses db (set_limit n (clauses (stmt db))).

(** The inline conditions of [First(&dest, conds...)]. An empty string
    adds no condition, any other string that is not a number is taken as
    an expression in the store's syntax, and everything else is a value
    of the primary key. *)
Definition is_digit (c : ascii) : bool :=
  (48 <=? nat_of_ascii c)%nat && (nat_of_ascii c <=? 57)%nat.

Fixpoint all_digits (s : string) : bool :=
  match s with
  | EmptyString => true
  | String c rest => is_digit c && all_digits rest
  end.

(** Does [strconv.Atoi] read the string (numbers beyond the range of
    [int] aside)? An optional sign and at least one digit. *)
Definition is_number (s : string) : bool :=
  match s with
  | EmptyString => false
  | String c rest =>
      if bool_decide (c = "+"%char \/ c = "-"%char)
      then negb (bool_decide (rest = "")) && all_digits rest
      else all_digits s
  end.

Definition inline (arg : any) : option Cond :=
  match arg with
  | Str s =>
      if bool_decide (s = "") then None
      else if is_number s then Some (PrimaryKey arg)
      else Some (Expr s [])
  | _ => Some (PrimaryKey arg)
  end.

(** *** The world behind the handles *)

Inductive Kind : Type := QFirst | QFind | QCount | QCreate | QPreload.

(** What reaches the store: statements and transaction control. *)
Inductive Event : Type :=
| Exec (k : Kind) (c : Conn) (s : Statement)
| Begin (id : nat)
| Commit (id : nat)
| Rollback (id : nat)
| SavePoint (id : nat)
| RollbackTo (id : nat).

Section World.

(** The entity type [T] of the repository. *)
Context {T : Type}.

(** How the store reads the entity type: which rows an expression
    selects, which row an inline primary key designates, how rows are
    ordered, what eager loading of a relation adds to a row, which
    relations the entity has, and its numeric primary key (zero while the
    store has not assigned one). *)
Record Schema : Type := {
  selects : string -> list any -> T -> bool;
  has_key : any -> T -> bool;
  order_by : list string -> list T -> list T;
  load : string -> T -> T;
  related : string -> bool;
  key : T -> Z;
  set_key : Z -> T -> T;
}.

(** The state of the store: the committed rows, the working copy of
    each open transaction, an injected failure that every statement
    reports while it is set, and the journal of what was sent. *)
Record World : Type := {
  committed : list T;
  pending : gmap nat (list T);
  next_tx : nat;
  fault : option error;
  journal : list Event;
}.

Definition record (e : Event) (w : World) : World :=
  {| committed := committed w; pending := pending w;
     next_tx := next_tx w; fault := fault w;
     journal := journal w ++ [e] |}.

Definition ErrTxDone : error :=
  StoreError "sql: transaction has already been committed or rolled back".

(** The rows a connection sees. *)
Definition visible (c : Conn) (w : World) : list T + error :=
  match c with
  | Pool => inl (committed w)
  | Tx id =>
      match pending w !! id with
      | Some rows => inl rows
      | None => inr ErrTxDone
      end
  end.

Definition put_rows (c : Conn) (rows : list T) (w : World) : World :=
  match c with
  | Pool =>
      {| committed := rows; pending := pending w;
         next_tx := next_tx w; fault := fault w; journal := journal w |}
  | Tx id =>
      {| committed := committed w; pending := <[id := rows]> (pending w);
         next_tx := next_tx w; fault := fault w; journal := journal w |}
  end.

Variable schema : Schema.

Definition holds (row : T) (c : Cond) : bool :=
  match c with
  | Expr sql args => selects schema sql args row
  | PrimaryKey id => has_key schema id row
  end.

(** WHERE: the rows that satisfy every condition, in the order asked. *)
Definition candidates (cs : Clauses) (rows : list T) : list T :=
  order_by schema (Orders cs)
    (List.filter (fun row => forallb (holds row) (Wheres cs)) rows).

(** OFFSET applies when positive, LIMIT when not negative. *)
Definition skip (o : option Z) (rows : list T) : list T :=
  match o with
  | Some n => if 0 <? n then drop (Z.to_nat n) rows else rows
  | None => rows
  end.

Definition cut (l : option Z) (rows : list T) : list T :=
  match l with
  | Some n => if 0 <=? n then take (Z.to_nat n) rows else rows
  | None => rows
  end.

Definition window (cs : Clauses) (rows : list T) : list T :=
  cut (Limit cs) (skip (Offset cs) rows).

Definition preloaded (names : list string) (row : T) : T :=
  fold_left (fun r name => load schema name r) names row.

(** Every statement is journalled, then fails with the injected fault
    or with the error of a closed transaction, or runs on the rows its
    connection sees. *)
Definition run {A : Type} (k : Kind) (db : DB)
    (f : list T -> World -> (A + error) * World) (w : World)
    : (A + error) * World :=
  let w1 := record (Exec k (conn db) (stmt db)) w in
  match fault w1 with
  | Some err => (inr err, w1)
  | None =>
      match visible (conn db) w1 with
      | inr err => (inr err, w1)
      | inl rows => f rows w1
      end
  end.

(** *** Finisher methods *)

Definition ErrUnsupportedRelation : error := StoreError "unsupported relations".

Definition ErrDuplicatedKey : error := StoreError "UNIQUE constraint failed".

(** Eager loading after the query proper: a preload the entity has no
    relation for fails the call; otherwise, when there are rows, one more
    statement per preload goes to the store and the rows come back with
    their relations loaded. *)
Definition eager (db : DB) (rows : list T) (w : World)
    : (list T + error) * World :=
  let names := Preloads (stmt db) in
  if forallb (related schema) names then
    (inl (map (preloaded names) rows),
     match rows with
     | [] => w
     | _ => fold_left
              (fun w1 (_ : string) =>
                 record (Exec QPreload (conn db) (stmt db)) w1)
              names w
     end)
  else (inr ErrUnsupportedRelation, w).

(** [db.First(&dest, conds...)]: the inline conditions join the WHERE
    clause, the first row in primary-key order is returned, and no row
    is [ErrRecordNotFound]. *)
Definition First (db : DB) (conds : list any) (w : World)
    : (T + error) * World :=
  let cs := fold_left
              (fun c arg =>
                 match inline arg with
                 | Some cond => add_where cond c
                 | None => c
                 end)
              conds (clauses (stmt db)) in
  let q := with_clauses db (set_limit 1 (add_order "primary key" cs)) in
  run QFirst q
    (fun rows w1 =>
       match window (clauses (stmt q)) (candidates (clauses (stmt q)) rows) with
       | row :: _ =>
           match eager q [row] w1 with
           | (inl (loaded :: _), w2) => (inl loaded, w2)
           | (inl [], w2) => (inr ErrRecordNotFound, w2)
           | (inr err, w2) => (inr err, w2)
           end
       | [] => (inr ErrRecordNotFound, w1)
       end) w.

(** [db.Find(&dest)]. *)
Definition Find (db : DB) (w : World) : (list T + error) * World :=
  run QFind db
    (fun rows w1 =>
       eager db
         (window (clauses (stmt db)) (candidates (clauses (stmt db)) rows))
         w1) w.

(** [db.Count(&count)]: the count query returns one row, the number of
    rows the WHERE clause selects, and keeps the LIMIT clause of the
    statement: with a positive offset or a limit of zero that row is cut
    off and the count stays zero. Eager loading plays no part in it. *)
Definition counted (cs : Clauses) (n : Z) : Z :=
  let past_offset :=
    match Offset cs with
    | Some o => negb (0 <? o)
    | None => true
    end in
  let within_limit :=
    match Limit cs with
    | Some l => negb (l =? 0)
    | None => true
    end in
  if past_offset && within_limit then n else 0.

Definition Count (db : DB) (w : World) : (Z + error) * World :=
  run QCount db
    (fun rows w1 =>
       (inl (counted (clauses (stmt db))
               (Z.of_nat (length
                  (List.filter (fun row => forallb (holds row)
                                             (Wheres (clauses (stmt db))))
                               rows)))), w1)) w.

(** The key the store assigns to a row that comes without one. *)
Definition next_key (rows : list T) : Z :=
  1 + fold_right Z.max 0 (map (key schema) rows).

(** [db.Create(&value)]: a row without a key gets the next one; a row
    whose key is taken violates the primary key and fails; otherwise the
    row is added to what the connection sees. *)
Definition Create (db : DB) (row : T) (w : World)
    : option error * World :=
  let '(res, w1) :=
    run QCreate db
      (fun rows w1 =>
         if key schema row =? 0 then
           (inl tt,
            put_rows (conn db)
              (rows ++ [set_key schema (next_key rows) row]) w1)
         else if existsb (fun r => key schema r =? key schema row) rows
         then (inr ErrDuplicatedKey, w1)
         else (inl tt, put_rows (conn db) (rows ++ [row]) w1)) w in
  match res with
  | inl _ => (None, w1)
  | inr err => (Some err, w1)
  end.

(** *** Transactions *)

Definition begin (w : World) : nat * World :=
  (next_tx w,
   record (Begin (next_tx w))
     {| committed := committed w;
        pending := <[next_tx w := committed w]> (pending w);
        next_tx := S (next_tx w); fault := fault w;
        journal := journal w |}).

Definition commit (id : nat) (w : World) : World :=
  record (Commit id)
    {| committed := default (committed w) (pending w !! id);
       pending := delete id (pending w);
       next_tx := next_tx w; fault := fault w; journal := journal w |}.

Definition rollback (id : nat) (w : World) : World :=
  record (Rollback id)
    {| committed := committed w;
       pending := delete id (pending w);
       next_tx := next_tx w; fault := fault w; journal := journal w |}.

(** A savepoint of a running transaction is its working copy. *)
Definition rollback_to (id : nat) (saved : option (list T)) (w : World)
    : World :=
  record (RollbackTo id)
    match saved with
    | Some rows => put_rows (Tx id) rows w
    | None => w
    end.

(** [db.Transaction(fc)]. On a handle of the pool a transaction is begun,
    [fc] runs on its handle, a nil result commits, and an error rolls
    back and is returned as it is; when the store fails, BEGIN fails and
    its error is returned without [fc] being run, and a failing COMMIT
    rolls back and returns its own error. On a handle that is in a
    transaction already, [fc] runs on that handle under a savepoint: an
    error rolls back to the savepoint and nothing is committed. *)
Definition Transaction (db : DB)
    (fc : DB -> World -> option error * World) (w : World)
    : option error * World :=
  match conn db with
  | Pool =>
      match fault w with
      | Some err => (Some err, w)
      | None =>
          let '(id, w0) := begin w in
          let tx := {| conn := Tx id; ctx := ctx db; stmt := stmt db |} in
          let '(err, w1) := fc tx w0 in
          match err with
          | None =>
              match fault w1 with
              | Some failed => (Some failed, rollback id w1)
              | None => (None, commit id w1)
              end
          | Some e => (Some e, rollback id w1)
          end
      end
  | Tx id =>
      match fault w with
      | Some err => (Some err, w)
      | None =>
          let saved := pending w !! id in
          let '(err, w1) := fc db (record (SavePoint id) w) in
          match err with
          | None => (None, w1)
          | Some e => (Some e, rollback_to id saved w1)
          end
      end
  end.

End World.

Arguments Schema : clear implicits.
Arguments World : clear implicits.

(** From [w] to [w'] the rows have stayed as they were, and what was sent
    are statements on the connection [c]. *)
Definition only_sent {T : Type} (c : Conn) (w w' : World T) : Prop :=
  committed w' = committed w
  /\ pending w' = pending w
  /\ exists events,
       journal w' = (journal w ++ events)%list
       /\ Forall (fun e => exists k s, e = Exec k c s) events.

End gorm.

(** ** Generic query modifiers *)

Module options.

(** Modelled from the spec: package [internal/pkg/options] is not part of
    the sources at hand. A generic modifier (ordering, row limiting,
    locking hints and the like) rewrites the clauses of the query it is
    given and leaves the relation preloads, which are a component of
    their own, alone; [Apply] runs the modifiers in sequence order. *)
Definition Option : Type := gorm.Clauses -> gorm.Clauses.

Definition Apply (db : gorm.DB) (opts : list Option) : gorm.DB :=
  fold_left
    (fun q opt => gorm.with_clauses q (opt (gorm.clauses (gorm.stmt q))))
    opts db.

(** A modifier that leaves the paging of the query (offset and limit)
    as it finds it. *)
Definition keeps_window (opt : Option) : Prop :=
  forall cs, gorm.Offset (opt cs) = gorm.Offset cs
             /\ gorm.Limit (opt cs) = gorm.Limit cs.

(** A modifier that does its work whatever the paging of the query is:
    it commutes with setting the offset and with setting the limit. *)
Definition paging_blind (opt : Option) : Prop :=
  forall n cs, opt (gorm.set_offset n cs) = gorm.set_offset n (opt cs)
               /\ opt (gorm.set_limit n cs) = gorm.set_limit n (opt cs).

(** Two modifiers of the kinds the spec lists. *)
Definition WithLimit (n : Z) : Option := gorm.set_limit n.

Definition WithOrder (o : string) : Option := gorm.add_order o.

End options.

(** ** The repository *)

Module model.

(** [QueryOptions]; a nil [*QueryOptions] is [None]. A nil slice and an
    empty one are both the empty list: the code only ranges over them
    and takes their length. *)
Record QueryOptions : Type := {
  Condition : string;
  Args : list any;
  Opts : list options.Option;
  Preloads : list string;
}.

(** [GenericRepo[T]]: the pointee of a [*GenericRepo[T]]. *)
Record GenericRepo : Type := {
  DB : gorm.DB;
  ErrorCode : Z;
}.

(** Pointers to repositories are locations of a heap. *)
Abbreviation Heap := (gmap nat GenericRepo).

(** [&GenericRepo[T]{...}]: a fresh location holding the value. *)
Definition alloc (v : GenericRepo) (h : Heap) : nat * Heap :=
  let l := fresh (dom h) in (l, <[l := v]> h).

(** A method call through the pointer [r]; nil or dangling is [None]. *)
Definition call {A : Type} (h : Heap) (r : nat) (method : GenericRepo -> A)
    : option A :=
  method <$> h !! r.

(** [applyQueryOptions]; the receiver is not used by the body. *)
Definition applyQueryOptions (query : gorm.DB) (opts : option QueryOptions)
    : gorm.DB :=
  match opts with
  | None => query
  | Some o =>
      let query :=
        fold_left (fun q preload => gorm.Preload preload q)
                  (Preloads o) query in
      let query :=
        if (0 <? length (Opts o))%nat
        then options.Apply query (Opts o)
        else query in
      let query :=
        if bool_decide (Condition o ≠ "")
        then gorm.Where (Condition o) (Args o) query
        else query in
      query
  end.

Section Repo.

Context {T : Type}.
Variable schema : gorm.Schema T.
Variable specs : errspec.Table.

#[local] Abbreviation World := (gorm.World T).

(** [NewGenericRepo]. *)
Definition NewGenericRepo (db : gorm.DB) : GenericRepo :=
  {| DB := db;
     ErrorCode := errspec.Code (errspec.ErrNotFound specs) |}.

(** [Create]. *)
Definition Create (r : GenericRepo) (ctx : Context) (entity : T)
    (w : World) : option error * World :=
  gorm.Create schema (gorm.WithContext ctx (DB r)) entity w.

(** The tail of [Get]: classification of the store's answer. *)
Definition classify (ctx : Context) (res : (T + error) * World)
    : (T + error) * World :=
  match res with
  | (inr err, w) =>
      if is_ErrRecordNotFound err
      then (inr (errspec.Wrap
                   (errspec.New (errspec.ErrRecordNotExist specs) ctx)
                   err), w)
      else (inr err, w)
  | (inl entity, w) => (inl entity, w)
  end.

(** [Get]. *)
Definition Get (r : GenericRepo) (ctx : Context) (id : any)
    (opts : option QueryOptions) (w : World) : (T + error) * World :=
  let query := applyQueryOptions (gorm.WithContext ctx (DB r)) opts in
  if bool_decide (id ≠ Nil) then
    classify ctx (gorm.First schema query [id] w)
  else
    match opts with
    | Some o =>
        if bool_decide (Condition o ≠ "")
        then classify ctx (gorm.First schema query [] w)
        else (inr (errspec.New (errspec.ErrQueryParamEmpty specs) ctx), w)
    | None =>
        (inr (errspec.New (errspec.ErrQueryParamEmpty specs) ctx), w)
    end.

(** [List]. *)
Definition List (r : GenericRepo) (ctx : Context) (page pageSize : Z)
    (opts : option QueryOptions) (w : World) : (list T + error) * World :=
  let query := gorm.WithContext ctx (DB r) in
  let offset := wrap_int (wrap_int (page - 1) * pageSize) in
  let query := gorm.SetLimit pageSize (gorm.SetOffset offset query) in
  let query := applyQueryOptions query opts in
  gorm.Find schema query w.

(** [Count]. *)
Definition Count (r : GenericRepo) (ctx : Context)
    (opts : option QueryOptions) (w : World) : (Z + error) * World :=
  let query := gorm.SetModel (gorm.WithContext ctx (DB r)) in
  let query := applyQueryOptions query opts in
  gorm.Count schema query w.

(** [Transaction]. *)
Definition Transaction (r : GenericRepo) (ctx : Context)
    (fn : gorm.DB -> World -> option error * World) (w : World)
    : option error * World :=
  gorm.Transaction (gorm.WithContext ctx (DB r)) fn w.

End Repo.

(** [WithTx]: a new repository value behind a new pointer. *)
Definition WithTx (h : Heap) (r : nat) (tx : gorm.DB)
    : option (nat * Heap) :=
  match h !! r with
  | Some v => Some (alloc {| DB := tx; ErrorCode := ErrorCode v |} h)
  | None => None
  end.

End model.

(** ** Request identifiers and the response envelope *)

Module uuid.

(** A UUID is a 128-bit number; [New] draws it from the random bits it is
    given and stamps version 4 and the RFC 4122 variant on it. *)
Definition New (rnd : Z) : Z :=
  let u := rnd mod 2 ^ 128 in
  let u := Z.lor (Z.land u (Z.lnot (Z.shiftl 15 76))) (Z.shiftl 4 76) in
  Z.lor (Z.land u (Z.lnot (Z.shiftl 3 62))) (Z.shiftl 2 62).

Definition hex_digit (n : Z) : ascii :=
  match n with
  | 0 => "0" | 1 => "1" | 2 => "2" | 3 => "3" | 4 => "4" | 5 => "5"
  | 6 => "6" | 7 => "7" | 8 => "8" | 9 => "9" | 10 => "a" | 11 => "b"
  | 12 => "c" | 13 => "d" | 14 => "e" | _ => "f"
  end%char.

(** The [i]-th hexadecimal digit of [u], counted from the left. *)
Definition digit (u : Z) (i : nat) : ascii :=
  hex_digit (Z.land (Z.shiftr u (4 * (31 - Z.of_nat i))) 15).

Definition digits (u : Z) (start len : nat) : string :=
  string_of_list_ascii (map (digit u) (seq start len)).

(** The canonical form xxxxxxxx-xxxx-xxxx-xxxx-xxxxxxxxxxxx. *)
Definition String (u : Z) : string :=
  digits u 0 8 +:+ "-" +:+ digits u 8 4 +:+ "-" +:+ digits u 12 4 +:+ "-"
    +:+ digits u 16 4 +:+ "-" +:+ digits u 20 12.

End uuid.

Module gin.

(** The part of [*gin.Context] the response package reads and writes. *)
Record Request : Type := {
  Header : gmap string string;
  ReqContext : Context;
  Path : string;
  Method : string;
}.

Record Context : Type := {
  Req : Request;
  Keys : gmap string any;
  RemoteIP : string;
}.

(** [c.GetHeader(key)]: the empty string when the header is absent. *)
Definition GetHeader (c : Context) (key : string) : string :=
  default "" (Header (Req c) !! key).

(** [c.Get(key)]: value and presence. *)
Definition Get (c : Context) (key : string) : option any :=
  Keys c !! key.

(** [c.Set(key, value)]. *)
Definition Set_ (c : Context) (key : string) (value : any) : Context :=
  {| Req := Req c; Keys := <[key := value]> (Keys c);
     RemoteIP := RemoteIP c |}.

End gin.

Module errorx.

(** Modelled from the spec: [errorx.FormatErrorChain] is not part of the
    sources at hand; it flattens the chain of causes of an error into
    one text. *)
Fixpoint FormatErrorChain (err : error) : string :=
  match err with
  | DomainError _ _ msg (Some cause) =>
      msg +:+ ": " +:+ FormatErrorChain cause
  | _ => error_Error err
  end.

End errorx.

Module logger.

(** Modelled from the spec: [logger.ErrorContext] is not part of the
    sources at hand; the structured logger takes a severity, a message
    and an ordered sequence of key/value pairs. *)
Record Entry : Type := {
  level : string;
  message : string;
  keyvals : list (string * any);
}.

Definition ErrorContext (msg : string) (kvs : list (string * any)) : Entry :=
  {| level := "error"; message := msg; keyvals := kvs |}.

(** *** Set-up of the default logger *)

(** [log.Level] and [log.Formatter] of the logging library. *)
Inductive Level : Type := DebugLevel | InfoLevel | WarnLevel | ErrorLevel.

Inductive Formatter : Type := TextFormatter | JSONFormatter.

#[global] Instance Level_eq_dec : EqDecision Level.
Proof. solve_decision. Defined.

(** [lumberjack.Logger]: the rotating file the log is written to. *)
Record FileLogger : Type := {
  Filename : string;
  MaxSize : Z;
  MaxAge : Z;
  MaxBackups : Z;
  Compress : bool;
}.

(** [io.Writer]: standard output, the log file, or a fan-out. *)
Inductive Writer : Type :=
| Stdout
| ToFile (f : FileLogger)
| MultiWriter (first second : Writer).

(** Does a line written to [w] reach standard output, the log file? *)
Fixpoint reaches_stdout (w : Writer) : bool :=
  match w with
  | Stdout => true
  | ToFile _ => false
  | MultiWriter a b => reaches_stdout a || reaches_stdout b
  end.

Fixpoint reaches_file (w : Writer) : bool :=
  match w with
  | Stdout => false
  | ToFile _ => true
  | MultiWriter a b => reaches_file a || reaches_file b
  end.

(** [log.Options]. *)
Record Options : Type := {
  OptLevel : Level;
  Prefix : string;
  TimeFormat : string;
  ReportTimestamp : bool;
  ReportCaller : bool;
  OptFormatter : Formatter;
}.

(** The logger [log.NewWithOptions(writer, options)] builds. *)
Record Logger : Type := {
  writer : Writer;
  options : Options;
}.

(** [parseLogLevel]. *)
Definition parseLogLevel (level : string) : Level :=
  if bool_decide (level = "debug") then DebugLevel
  else if bool_decide (level = "info") then InfoLevel
  else if bool_decide (level = "warn") then WarnLevel
  else if bool_decide (level = "error") then ErrorLevel
  else InfoLevel.

(** [for _, output := range outputs { if output == name { ...; break } }]:
    is there an output of that name? *)
Fixpoint names (name : string) (outputs : list string) : bool :=
  match outputs with
  | [] => false
  | output :: rest =>
      if bool_decide (output = name) then true else names name rest
  end.

Section Setup.

(** [configs.LogFormat] with its two constants; the declarations of
    package [configs] are not among the sources, the code only compares
    values of the type. *)
Context {LogFormat : Type} `{EqDecision LogFormat}.
Variables LogFormatJSON LogFormatText : LogFormat.

(** [configs.LogConfig]: the fields [Setup] reads. *)
Record FileConfig : Type := {
  Path : string;
  FileMaxSize : Z;
  FileMaxAge : Z;
  FileMaxBackups : Z;
  FileCompress : bool;
}.

Record LogConfig : Type := {
  CfgLevel : string;
  Output : list string;
  CfgFile : FileConfig;
  Format : LogFormat;
}.

(** [parseLogFormat]. *)
Definition parseLogFormat (format : LogFormat) : Formatter :=
  if bool_decide (format = LogFormatJSON) then JSONFormatter
  else if bool_decide (format = LogFormatText) then TextFormatter
  else TextFormatter.

(** [Setup]: the logger it installs as the default one. *)
Definition Setup (config : LogConfig) : Logger :=
  let level := parseLogLevel (CfgLevel config) in
  let hasConsole := names "console" (Output config) in
  let hasConsole :=
    if bool_decide (length (Output config) = 0%nat) then true
    else hasConsole in
  let fileOutput :=
    if names "file" (Output config)
    then Some {| Filename := Path (CfgFile config);
                 MaxSize := FileMaxSize (CfgFile config);
                 MaxAge := FileMaxAge (CfgFile config);
                 MaxBackups := FileMaxBackups (CfgFile config);
                 Compress := FileCompress (CfgFile config) |}
    else None in
  let opts :=
    {| OptLevel := level;
       Prefix := "🌏 starter";
       TimeFormat := "2006-01-02T15:04:05Z07:00";
       ReportTimestamp := true;
       ReportCaller := bool_decide (level = DebugLevel);
       OptFormatter := TextFormatter |} in
  let writer :=
    match hasConsole, fileOutput with
    | true, Some f => MultiWriter Stdout (ToFile f)
    | true, None => Stdout
    | false, Some f => ToFile f
    | false, None => Stdout
    end in
  let formatter :=
    if bool_decide (Format config = LogFormatJSON) then JSONFormatter
    else TextFormatter in
  {| writer := writer;
     options :=
       {| OptLevel := OptLevel opts; Prefix := Prefix opts;
          TimeFormat := TimeFormat opts;
          ReportTimestamp := ReportTimestamp opts;
          ReportCaller := ReportCaller opts;
          OptFormatter := formatter |} |}.

End Setup.

Arguments FileConfig : clear implicits.
Arguments LogConfig : clear implicits.

(** *** LogError *)

Section LogError.

(** What the body takes from outside: the answer of
    [ShouldShowStackTrace(log.ErrorLevel)], the rendering [%+v] of an
    error, and that rendering for the errors that are an [fmt.Formatter]. *)
Variable showStackTrace : bool.
Variable verbose : error -> string.
Variable formatted : error -> option string.

(** The error values with [Error], [GetErrorMsg], [Unwrap] and
    [GetStackTrace]: the domain errors. *)
Definition is_app_error (err : error) : bool :=
  match err with
  | DomainError _ _ _ _ => true
  | _ => false
  end.

(** [LogError]: the entry handed to [log.Error]. *)
Definition LogError (msg : string) (err : error) (kvs : list any) : string * list any :=
  let fields : list any := [] in
  let fields :=
    if is_app_error err then
      let fields :=
        if showStackTrace
        then (fields ++ [Str "err"; Str (verbose err)])%list
        else (fields ++ [Str "err"; Str (error_Error err)])%list in
      match Unwrap err with
      | Some originalErr =>
          (fields ++ [Str "original_err"; Str (error_Error originalErr)])%list
      | None => fields
      end
    else
      let fields := (fields ++ [Str "err"; Str (error_Error err)])%list in
      let fields :=
        if showStackTrace then
          match formatted err with
          | Some text =>
              (fields ++ [Str "stack_trace";
                          Str (String "010"%char EmptyString +:+ text)])%list
          | None => fields
          end
        else fields in
      match Unwrap err with
      | Some originalErr =>
          (fields ++ [Str "original_err"; Str (error_Error originalErr)])%list
      | None => fields
      end in
  let fields := (fields ++ kvs)%list in
  (msg, fields).

End LogError.

End logger.

Module response.

(** [Result[T]]. *)
Record Result (D : Type) : Type := {
  Code : Z;
  Message : string;
  Data : D;
  RequestID : string;
  Time : Z;
  TraceID : string;
}.

Arguments Code {D} _.
Arguments Message {D} _.
Arguments Data {D} _.
Arguments RequestID {D} _.
Arguments Time {D} _.
Arguments TraceID {D} _.

(** What [c.JSON(status, body)] writes. *)
Definition Written (D : Type) : Type := (Z * Result D)%type.

Definition StatusOK : Z := 200.
Definition StatusInternalServerError : Z := 500.

(** [s, ok := v.(string); ok && s != ""]. *)
Definition nonempty_string (v : any) : option string :=
  match as_string v with
  | Some s => if bool_decide (s ≠ "") then Some s else None
  | None => None
  end.

(** [getRequestID]; [rnd] is the randomness a new UUID would consume. *)
Definition getRequestID (c : gin.Context) (rnd : Z) : string * gin.Context :=
  let reqID := gin.GetHeader c "X-Request-ID" in
  if bool_decide (reqID ≠ "") then (reqID, c)
  else
    match gin.Get c "request_id" ≫= nonempty_string with
    | Some strID => (strID, c)
    | None =>
        let ctx := gin.ReqContext (gin.Req c) in
        match nonempty_string (Value ctx "request_id") with
        | Some reqID => (reqID, c)
        | None =>
            let newID := uuid.String (uuid.New rnd) in
            (newID, gin.Set_ c "request_id" (Str newID))
        end
    end.

(** [getTraceIDFromContext]. *)
Definition getTraceIDFromContext (c : gin.Context) : string :=
  match gin.Get c "trace_id" ≫= nonempty_string with
  | Some strID => strID
  | None =>
      let ctx := gin.ReqContext (gin.Req c) in
      match nonempty_string (Value ctx "trace_id") with
      | Some traceID => traceID
      | None => gin.GetHeader c "X-Trace-ID"
      end
  end.

(** [message := "success"; if len(msg) > 0 { message = msg[0] }]. *)
Definition message_of (msg : list string) : string :=
  match msg with
  | m :: _ => m
  | [] => "success"
  end.

(** [Success]; [now] is [time.Now().Unix()]. *)
Definition Success {D : Type} (c : gin.Context) (data : D)
    (msg : list string) (now rnd : Z) : gin.Context * Written D :=
  let message := message_of msg in
  let '(requestID, c) := getRequestID c rnd in
  (c, (StatusOK,
       {| Code := 0; Message := message; Data := data;
          RequestID := requestID; Time := now; TraceID := "" |})).

(** [SuccessNoData]. *)
Definition SuccessNoData (c : gin.Context) (msg : list string)
    (now rnd : Z) : gin.Context * Written unit :=
  let message := message_of msg in
  let '(requestID, c) := getRequestID c rnd in
  (c, (StatusOK,
       {| Code := 0; Message := message; Data := tt;
          RequestID := requestID; Time := now; TraceID := "" |})).

(** [Error]: the log entry and the response. *)
Definition Error (specs : errspec.Table) (c : gin.Context) (err : error)
    (now rnd : Z) : gin.Context * logger.Entry * Written unit :=
  let errorCode := errspec.Code (errspec.ErrUnknown specs) in
  let httpStatus := StatusInternalServerError in
  let message := error_Error err in
  let errorCode := default errorCode (error_Code err) in
  let httpStatus := default httpStatus (error_HttpStatus err) in
  let '(requestID, c) := getRequestID c rnd in
  let traceID := getTraceIDFromContext c in
  let entry :=
    logger.ErrorContext "API error occurred"
      [("code", Int errorCode); ("message", Str message);
       ("trace_id", Str traceID); ("request_id", Str requestID);
       ("path", Str (gin.Path (gin.Req c)));
       ("method", Str (gin.Method (gin.Req c)));
       ("client_ip", Str (gin.RemoteIP c));
       ("error_chain", Str (errorx.FormatErrorChain err))] in
  (c, entry,
   (httpStatus,
    {| Code := errorCode; Message := message; Data := tt;
       RequestID := requestID; Time := now; TraceID := traceID |})).

End response.

(** ** The composition order in the words of the specification *)

Module composition.

(** Step 1: every preload, in sequence order. *)
Fixpoint preloads (names : list string) (query : gorm.DB) : gorm.DB :=
  match names with
  | [] => query
  | name :: rest => preloads rest (gorm.Preload name query)
  end.

(** Step 2: every generic modifier, in sequence order. *)
Fixpoint modifiers (opts : list options.Option) (query : gorm.DB) : gorm.DB :=
  match opts with
  | [] => query
  | opt :: rest =>
      modifiers rest
        (gorm.with_clauses query (opt (gorm.clauses (gorm.stmt query))))
  end.

(** Step 3: the condition with its arguments, when there is one. *)
Definition condition (cond : string) (args : list any) (query : gorm.DB)
    : gorm.DB :=
  if decide (cond = "") then query else gorm.Where cond args query.

Definition in_order (o : model.QueryOptions) (query : gorm.DB) : gorm.DB :=
  condition (model.Condition o) (model.Args o)
    (modifiers (model.Opts o) (preloads (model.Preloads o) query)).

(** The same options with the preloads left out. *)
Definition without_preloads (o : model.QueryOptions) : model.QueryOptions :=
  {| model.Condition := model.Condition o; model.Args := model.Args o;
     model.Opts := model.Opts o; model.Preloads := [] |}.

(** The all-empty options. *)
Definition empty : model.QueryOptions :=
  {| model.Condition := ""; model.Args := []; model.Opts := [];
     model.Preloads := [] |}.

End composition.

(** ** A small instance: users *)

Module sample.

Record User : Type := {
  uid : Z;
  uname : string;
  profile : bool;
}.

(** The store understands the expressions [name = ?] and [name <> ?],
    designates a row by its numeric key, keeps the table in key order and
    can load the relation [Profile]. *)
Definition schema : gorm.Schema User :=
  {| gorm.selects sql args row :=
       match args with
       | [Str s] =>
           (bool_decide (sql = "name = ?") && bool_decide (uname row = s))
           || (bool_decide (sql = "name <> ?")
               && negb (bool_decide (uname row = s)))
       | _ => false
       end;
     gorm.has_key id row := bool_decide (id = Int (uid row));
     gorm.order_by _ rows := rows;
     gorm.load name row :=
       if bool_decide (name = "Profile")
       then {| uid := uid row; uname := uname row; profile := true |}
       else row;
     gorm.related name := bool_decide (name = "Profile");
     gorm.key row := uid row;
     gorm.set_key n row :=
       {| uid := n; uname := uname row; profile := profile row |} |}.

Definition specs : errspec.Table :=
  {| errspec.ErrUnknown :=
       {| errspec.spec_code := 10000; errspec.spec_http := Some 500;
          errspec.spec_msg := "unknown error" |};
     errspec.ErrNotFound :=
       {| errspec.spec_code := 10004; errspec.spec_http := Some 404;
          errspec.spec_msg := "not found" |};
     errspec.ErrRecordNotExist :=
       {| errspec.spec_code := 20001; errspec.spec_http := Some 404;
          errspec.spec_msg := "record does not exist" |};
     errspec.ErrQueryParamEmpty :=
       {| errspec.spec_code := 20002; errspec.spec_http := Some 400;
          errspec.spec_msg := "query parameter is empty" |} |}.

Definition alice : User := {| uid := 1; uname := "alice"; profile := false |}.
Definition bob : User := {| uid := 2; uname := "bob"; profile := false |}.
Definition carol : User := {| uid := 3; uname := "carol"; profile := false |}.
Definition dave : User := {| uid := 4; uname := "dave"; profile := false |}.

Definition world : gorm.World User :=
  {| gorm.committed := [alice; bob; carol]; gorm.pending := ∅;
     gorm.next_tx := 0%nat; gorm.fault := None; gorm.journal := [] |}.

(** The same store while it is unreachable. *)
Definition broken : error := StoreError "dial tcp: connection refused".

Definition down : gorm.World User :=
  {| gorm.committed := [alice; bob; carol]; gorm.pending := ∅;
     gorm.next_tx := 0%nat; gorm.fault := Some broken;
     gorm.journal := [] |}.

Definition repo : model.GenericRepo := model.NewGenericRepo specs gorm.Open.

(** Options that filter on the name. *)
Definition named (s : string) : model.QueryOptions :=
  {| model.Condition := "name = ?"; model.Args := [Str s];
     model.Opts := []; model.Preloads := [] |}.

(** Options whose only content is a row-limiting modifier. *)
Definition limited (n : Z) : model.QueryOptions :=
  {| model.Condition := ""; model.Args := [];
     model.Opts := [options.WithLimit n]; model.Preloads := [] |}.

(** A closure that creates a row through the rebound repository and
    then fails. *)
Definition boom : error := StoreError "boom".



(** A request without any identifier, and one that carries the header. *)
Definition bare : gin.Context :=
  {| gin.Req := {| gin.Header := ∅; gin.ReqContext := ∅;
                   gin.Path := "/users"; gin.Method := "GET" |};
     gin.Keys := ∅; gin.RemoteIP := "127.0.0.1" |}.

Definition tagged : gin.Context :=
  {| gin.Req := {| gin.Header := {[ "X-Request-ID" := "abc" ]};
                   gin.ReqContext := ∅;
                   gin.Path := "/users"; gin.Method := "GET" |};
     gin.Keys := ∅; gin.RemoteIP := "127.0.0.1" |}.

(** A request that carries both headers and both gin keys. *)
Definition both : gin.Context :=
  {| gin.Req := {| gin.Header := {[ "X-Request-ID" := "from-header";
                                    "X-Trace-ID" := "from-header" ]};
                   gin.ReqContext := ∅;
                   gin.Path := "/users"; gin.Method := "GET" |};
     gin.Keys := {[ "request_id" := Str "from-key";
                    "trace_id" := Str "from-key" ]};
     gin.RemoteIP := "127.0.0.1" |}.

(** A row with its profile loaded. *)
Definition loaded (u : User) : User :=
  {| uid := uid u; uname := uname u; profile := true |}.

(** Options with a preload, a modifier and a condition: the users whose
    name is not empty, ordered by name, with their profile. *)
Definition full : model.QueryOptions :=
  {| model.Condition := "name <> ?"; model.Args := [Str ""];
     model.Opts := [options.WithOrder "name"];
     model.Preloads := ["Profile"] |}.

(** Options with a modifier that orders by name. *)
Definition ordered : model.QueryOptions :=
  {| model.Condition := ""; model.Args := [];
     model.Opts := [options.WithOrder "name"]; model.Preloads := [] |}.

End sample.

(** * Properties *)

(** ** Query options *)

Lemma composition_preloads_fold names query :
  fold_left (fun q preload => gorm.Preload preload q) names query
  = composition.preloads names query.
Proof.
  revert query. induction names as [|name rest IH]; intros query; simpl.
  - reflexivity.
  - apply IH.
Qed.

Lemma composition_modifiers_fold opts query :
  options.Apply query opts = composition.modifiers opts query.
Proof.
  unfold options.Apply. revert query.
  induction opts as [|opt rest IH]; intros query; simpl.
  - reflexivity.
  - apply IH.
Qed.

Lemma applyQueryOptions_some (query : gorm.DB) (o : model.QueryOptions) :
  model.applyQueryOptions query (Some o) = composition.in_order o query.
Proof.
  unfold model.applyQueryOptions, composition.in_order, composition.condition.
  rewrite composition_preloads_fold.
  assert (Hm : (if (0 <? length (model.Opts o))%nat
                then options.Apply
                       (composition.preloads (model.Preloads o) query)
                       (model.Opts o)
                else composition.preloads (model.Preloads o) query)
               = composition.modifiers (model.Opts o)
                   (composition.preloads (model.Preloads o) query)).
  { destruct (model.Opts o) as [|opt rest] eqn:E.
    - reflexivity.
    - change (0 <? length (opt :: rest))%nat with true. cbv iota.
      apply composition_modifiers_fold. }
  rewrite Hm.
  destruct (decide (model.Condition o = "")) as [Heq|Hne].
  - rewrite bool_decide_eq_false_2; [reflexivity | intros H; exact (H Heq)].
  - rewrite bool_decide_eq_true_2; [reflexivity | exact Hne].
Qed.


(** ** Get *)

(** C4. Without an id, and with nil options or an empty condition, [Get]
    returns the empty-query-parameter domain error and leaves the store
    as it was: its journal shows that no statement was sent. *)
Theorem Get_empty_query_parameter {T : Type} (schema : gorm.Schema T)
    (specs : errspec.Table) (r : model.GenericRepo) (ctx : Context)
    (opts : option model.QueryOptions) (w : gorm.World T) :
  (opts = None \/ exists o, opts = Some o /\ model.Condition o = "") ->
  model.Get schema specs r ctx Nil opts w
  = (inr (errspec.New (errspec.ErrQueryParamEmpty specs) ctx), w).
Proof.
  intros [-> | (o & -> & Hc)]; unfold model.Get.
  - rewrite bool_decide_eq_false_2 by (intros H; apply H; reflexivity).
    reflexivity.
  - rewrite bool_decide_eq_false_2 by (intros H; apply H; reflexivity).
    rewrite bool_decide_eq_false_2 by (intros H; apply H; exact Hc).
    reflexivity.
Qed.

Lemma Get_empty_query_parameter_witness :
  (Some composition.empty = None
   \/ exists o, Some composition.empty = Some o /\ model.Condition o = "")
  /\ model.Get sample.schema sample.specs sample.repo ∅ Nil
       (Some composition.empty) sample.world
     = (inr (errspec.New (errspec.ErrQueryParamEmpty sample.specs) ∅),
        sample.world).
Proof.
  assert (H : Some composition.empty = None
              \/ exists o, Some composition.empty = Some o
                           /\ model.Condition o = "").
  { right. exists composition.empty. split; reflexivity. }
  split; [exact H |].
  apply (Get_empty_query_parameter sample.schema sample.specs sample.repo ∅
           (Some composition.empty) sample.world H).
Defined.

(** The statement [Get] sends when it reaches the store, and the inline
    conditions it passes to [First]. *)
Lemma Get_reaches_store {T : Type} (schema : gorm.Schema T)
    (specs : errspec.Table) (r : model.GenericRepo) (ctx : Context)
    (id : any) (opts : option model.QueryOptions) (w : gorm.World T) :
  (id <> Nil \/ exists o, opts = Some o /\ model.Condition o <> "") ->
  model.Get schema specs r ctx id opts w
  = model.classify specs ctx
      (gorm.First schema
         (model.applyQueryOptions (gorm.WithContext ctx (model.DB r)) opts)
         (if bool_decide (id <> Nil) then [id] else []) w).
Proof.
  intros Hreach. unfold model.Get.
  destruct (bool_decide (id <> Nil)) eqn:Hid; [reflexivity |].
  destruct Hreach as [Hne | (o & -> & Hc)].
  - apply bool_decide_eq_false_1 in Hid. contradiction.
  - rewrite bool_decide_eq_true_2 by exact Hc. reflexivity.
Qed.

(** C2. When [Get] reaches the store and the store reports the
    record-not-found sentinel, [Get] returns the domain not-found error
    with the sentinel as its wrapped cause; any other store error comes
    back as the very value the store reported. *)
Theorem Get_classifies_store_errors {T : Type} (schema : gorm.Schema T)
    (specs : errspec.Table) (r : model.GenericRepo) (ctx : Context)
    (id : any) (opts : option model.QueryOptions) (w w' : gorm.World T)
    (err : error) :
  (id <> Nil \/ exists o, opts = Some o /\ model.Condition o <> "") ->
  gorm.First schema
    (model.applyQueryOptions (gorm.WithContext ctx (model.DB r)) opts)
    (if bool_decide (id <> Nil) then [id] else []) w = (inr err, w') ->
  (err = ErrRecordNotFound ->
   exists e,
     model.Get schema specs r ctx id opts w = (inr e, w')
     /\ e = errspec.Wrap
              (errspec.New (errspec.ErrRecordNotExist specs) ctx)
              ErrRecordNotFound
     /\ Unwrap e = Some ErrRecordNotFound)
  /\ (err <> ErrRecordNotFound ->
      model.Get schema specs r ctx id opts w = (inr err, w')).
Proof.
  intros Hreach Hfirst.
  rewrite (Get_reaches_store schema specs r ctx id opts w Hreach), Hfirst.
  split.
  - intros ->. eexists. split; [reflexivity |]. split; reflexivity.
  - intros Hne. unfold model.classify.
    destruct err; try reflexivity. contradiction.
Qed.

Lemma Get_classifies_store_errors_witness :
  let q := model.applyQueryOptions (gorm.WithContext ∅ (model.DB sample.repo))
             None in
  let lost := snd (gorm.First sample.schema q [Int 9] sample.world) in
  let failed := snd (gorm.First sample.schema q [Int 9] sample.down) in
  (Int 9 <> Nil \/ exists o, None = Some o /\ model.Condition o <> "")
  /\ gorm.First sample.schema q [Int 9] sample.world
     = (inr ErrRecordNotFound, lost)
  /\ gorm.First sample.schema q [Int 9] sample.down
     = (inr sample.broken, failed)
  /\ (ErrRecordNotFound = ErrRecordNotFound ->
      exists e,
        model.Get sample.schema sample.specs sample.repo ∅ (Int 9) None
          sample.world = (inr e, lost)
        /\ e = errspec.Wrap
                 (errspec.New (errspec.ErrRecordNotExist sample.specs) ∅)
                 ErrRecordNotFound
        /\ Unwrap e = Some ErrRecordNotFound)
  /\ (sample.broken <> ErrRecordNotFound ->
      model.Get sample.schema sample.specs sample.repo ∅ (Int 9) None
        sample.down = (inr sample.broken, failed)).
Proof.
  intros q lost failed.
  assert (Hreach : Int 9 <> Nil
                   \/ exists o, None = Some o /\ model.Condition o <> "").
  { left. discriminate. }
  assert (Hlost : gorm.First sample.schema q [Int 9] sample.world
                  = (inr ErrRecordNotFound, lost)).
  { vm_compute. reflexivity. }
  assert (Hfailed : gorm.First sample.schema q [Int 9] sample.down
                    = (inr sample.broken, failed)).
  { vm_compute. reflexivity. }
  split; [exact Hreach |]. split; [exact Hlost |]. split; [exact Hfailed |].
  split.
  - exact (proj1 (Get_classifies_store_errors sample.schema sample.specs
                    sample.repo ∅ (Int 9) None sample.world lost
                    ErrRecordNotFound Hreach Hlost)).
  - exact (proj2 (Get_classifies_store_errors sample.schema sample.specs
                    sample.repo ∅ (Int 9) None sample.down failed
                    sample.broken Hreach Hfailed)).
Defined.

(** C9. The configured [ErrorCode] plays no part in [Get]: whatever the
    code of [errspec.ErrRecordNotExist] is, a repository configured with
    another code answers a missing row with the code of
    [errspec.ErrRecordNotExist] and not with its own. *)
Theorem Get_not_found_code_ignores_ErrorCode (specs : errspec.Table) :
  let r := {| model.DB := gorm.Open;
              model.ErrorCode :=
                errspec.Code (errspec.ErrRecordNotExist specs) + 1 |} in
  exists e,
    fst (model.Get sample.schema specs r ∅ (Int 9) None sample.world) = inr e
    /\ Unwrap e = Some ErrRecordNotFound
    /\ error_Code e = Some (errspec.Code (errspec.ErrRecordNotExist specs))
    /\ error_Code e <> Some (model.ErrorCode r).
Proof.
  intros r. eexists. split; [reflexivity |].
  split; [reflexivity |]. split; [reflexivity |].
  simpl. intros [= H]. unfold errspec.Code in H. clear r. lia.
Qed.

(** C1. With an id and a condition [Get] asks the store for the row that
    has the id and satisfies the condition: user 1 is found when the
    condition is empty and is reported missing under the condition
    [name = "bob"]. *)
Theorem Get_by_id_applies_condition :
  fst (model.Get sample.schema sample.specs sample.repo ∅ (Int 1)
         (Some composition.empty) sample.world)
  = inl sample.alice
  /\ fst (model.Get sample.schema sample.specs sample.repo ∅ (Int 1)
            (Some (sample.named "bob")) sample.world)
     = inr (errspec.Wrap
              (errspec.New (errspec.ErrRecordNotExist sample.specs) ∅)
              ErrRecordNotFound).
Proof.
  split; vm_compute; reflexivity.
Qed.

(** ** What the composition does to a statement *)

Lemma preloads_conn names query :
  gorm.conn (composition.preloads names query) = gorm.conn query.
Proof.
  revert query. induction names as [|n rest IH]; intros query; simpl;
    [reflexivity | rewrite IH; reflexivity].
Qed.

Lemma preloads_clauses names query :
  gorm.clauses (gorm.stmt (composition.preloads names query))
  = gorm.clauses (gorm.stmt query).
Proof.
  revert query. induction names as [|n rest IH]; intros query; simpl;
    [reflexivity | rewrite IH; reflexivity].
Qed.

Lemma modifiers_conn opts query :
  gorm.conn (composition.modifiers opts query) = gorm.conn query.
Proof.
  revert query. induction opts as [|m rest IH]; intros query; simpl;
    [reflexivity | rewrite IH; reflexivity].
Qed.

Lemma modifiers_clauses opts query :
  gorm.clauses (gorm.stmt (composition.modifiers opts query))
  = fold_left (fun cs (m : options.Option) => m cs) opts
      (gorm.clauses (gorm.stmt query)).
Proof.
  revert query. induction opts as [|m rest IH]; intros query; simpl;
    [reflexivity | rewrite IH; reflexivity].
Qed.

Lemma condition_conn cond args query :
  gorm.conn (composition.condition cond args query) = gorm.conn query.
Proof. unfold composition.condition. destruct (decide _); reflexivity. Qed.

Lemma condition_clauses cond args query :
  gorm.clauses (gorm.stmt (composition.condition cond args query))
  = if decide (cond = "") then gorm.clauses (gorm.stmt query)
    else gorm.add_where (gorm.Expr cond args) (gorm.clauses (gorm.stmt query)).
Proof. unfold composition.condition. destruct (decide _); reflexivity. Qed.

Lemma applyQueryOptions_conn query opts :
  gorm.conn (model.applyQueryOptions query opts) = gorm.conn query.
Proof.
  destruct opts as [o|]; [|reflexivity].
  rewrite applyQueryOptions_some. unfold composition.in_order.
  rewrite condition_conn, modifiers_conn, preloads_conn. reflexivity.
Qed.

(** The clauses after the composition depend on the clauses before it, on
    the modifiers and on the condition, and on nothing else. *)
Lemma applyQueryOptions_clauses query o :
  gorm.clauses (gorm.stmt (model.applyQueryOptions query (Some o)))
  = let cs := fold_left (fun cs (m : options.Option) => m cs) (model.Opts o)
                (gorm.clauses (gorm.stmt query)) in
    if decide (model.Condition o = "") then cs
    else gorm.add_where (gorm.Expr (model.Condition o) (model.Args o)) cs.
Proof.
  rewrite applyQueryOptions_some. unfold composition.in_order.
  rewrite condition_clauses, modifiers_clauses, preloads_clauses.
  reflexivity.
Qed.

(** ** Count *)

Lemma gorm_Count_result {T : Type} (schema : gorm.Schema T) (db : gorm.DB)
    (w : gorm.World T) :
  fst (gorm.Count schema db w)
  = match gorm.fault w with
    | Some err => inr err
    | None =>
        match gorm.visible (gorm.conn db) w with
        | inr err => inr err
        | inl rows =>
            inl (gorm.counted (gorm.clauses (gorm.stmt db))
                   (Z.of_nat (length
                      (List.filter
                         (fun row =>
                            forallb (gorm.holds schema row)
                              (gorm.Wheres (gorm.clauses (gorm.stmt db))))
                         rows))))
        end
    end.
Proof.
  unfold gorm.Count, gorm.run. simpl.
  destruct (gorm.fault w); [reflexivity |].
  destruct (gorm.conn db); simpl; [reflexivity |].
  destruct (gorm.pending w !! id); reflexivity.
Qed.

(** C3. [Count] computes the same count, or reports the same error, with
    the preloads of the options as without them. *)
Theorem Count_ignores_preloads {T : Type} (schema : gorm.Schema T)
    (r : model.GenericRepo) (ctx : Context) (o : model.QueryOptions)
    (w : gorm.World T) :
  fst (model.Count schema r ctx (Some o) w)
  = fst (model.Count schema r ctx (Some (composition.without_preloads o)) w).
Proof.
  unfold model.Count. rewrite !gorm_Count_result.
  rewrite !applyQueryOptions_conn, !applyQueryOptions_clauses.
  reflexivity.
Qed.

(** ** List *)

Lemma wrap_int_small (z : Z) : is_int z -> wrap_int z = z.
Proof.
  unfold is_int, int_min, int_max, wrap_int. intros H.
  rewrite Z.mod_small by lia. lia.
Qed.

Lemma window_page {T : Type} (cs : gorm.Clauses) (off n : Z) (rows : list T) :
  gorm.Offset cs = Some off -> gorm.Limit cs = Some n -> 0 <= off -> 0 <= n ->
  gorm.window cs rows = take (Z.to_nat n) (drop (Z.to_nat off) rows).
Proof.
  intros Ho Hl Hoff Hn. unfold gorm.window, gorm.cut, gorm.skip.
  rewrite Ho, Hl.
  destruct (0 <=? n) eqn:En; [|apply Z.leb_gt in En; lia].
  destruct (0 <? off) eqn:Eo; [reflexivity |].
  apply Z.ltb_ge in Eo. replace off with 0 by lia. reflexivity.
Qed.

Lemma modifiers_keep_window (opts : list options.Option) (cs : gorm.Clauses) :
  Forall options.keeps_window opts ->
  gorm.Offset (fold_left (fun cs (m : options.Option) => m cs) opts cs)
  = gorm.Offset cs
  /\ gorm.Limit (fold_left (fun cs (m : options.Option) => m cs) opts cs)
     = gorm.Limit cs.
Proof.
  intros H. revert cs. induction H as [|m rest Hm _ IH]; intros cs; simpl.
  - split; reflexivity.
  - destruct (IH (m cs)) as [-> ->]. apply Hm.
Qed.

Lemma applyQueryOptions_keeps_window query opts :
  (forall o, opts = Some o -> Forall options.keeps_window (model.Opts o)) ->
  gorm.Offset (gorm.clauses (gorm.stmt (model.applyQueryOptions query opts)))
  = gorm.Offset (gorm.clauses (gorm.stmt query))
  /\ gorm.Limit (gorm.clauses (gorm.stmt (model.applyQueryOptions query opts)))
     = gorm.Limit (gorm.clauses (gorm.stmt query)).
Proof.
  intros H. destruct opts as [o|]; [|split; reflexivity].
  rewrite applyQueryOptions_clauses. cbv zeta.
  destruct (modifiers_keep_window (model.Opts o)
              (gorm.clauses (gorm.stmt query)) (H o eq_refl)) as [Ho Hl].
  destruct (decide (model.Condition o = "")); simpl; split; assumption.
Qed.

Lemma gorm_Find_rows {T : Type} (schema : gorm.Schema T) (db : gorm.DB)
    (w w' : gorm.World T) (rows : list T) :
  gorm.Find schema db w = (inl rows, w') ->
  exists stored,
    gorm.visible (gorm.conn db) w = inl stored
    /\ rows = map (gorm.preloaded schema (gorm.Preloads (gorm.stmt db)))
                (gorm.window (gorm.clauses (gorm.stmt db))
                   (gorm.candidates schema (gorm.clauses (gorm.stmt db))
                      stored)).
Proof.
  unfold gorm.Find, gorm.run, gorm.eager. simpl.
  destruct (gorm.fault w); [discriminate |].
  destruct (gorm.conn db); simpl.
  - destruct (forallb _ _); [|discriminate].
    intros [= <- _]. eexists. split; reflexivity.
  - destruct (gorm.pending w !! id); [|discriminate].
    destruct (forallb _ _); [|discriminate].
    intros [= <- _]. eexists. split; reflexivity.
Qed.

(** On a statement without a LIMIT clause, an offset that is not negative
    followed by a limit gives exactly that offset and that limit. *)
Lemma paged_fresh (cs : gorm.Clauses) (off n : Z) :
  gorm.Offset cs = None -> gorm.Limit cs = None -> 0 <= off ->
  gorm.Offset (gorm.set_limit n (gorm.set_offset off cs)) = Some off
  /\ gorm.Limit (gorm.set_limit n (gorm.set_offset off cs)) = Some n.
Proof.
  intros Ho Hl Hoff. unfold gorm.set_limit, gorm.set_offset, gorm.merge_limit.
  rewrite Ho, Hl. simpl. split; [|destruct n; reflexivity].
  destruct (decide (0 < off)) as [Hpos|Hzero].
  - rewrite bool_decide_eq_true_2 by (split; [reflexivity | exact Hpos]).
    reflexivity.
  - rewrite bool_decide_eq_false_2 by (intros [_ H]; exact (Hzero H)).
    simpl. f_equal. lia.
Qed.

(** C5, as the code has it. On a repository whose handle carries no
    LIMIT clause of its own, for a page and a page size from 1 on whose
    offset [(page-1)*pageSize] fits Go's [int], [List] first sets that
    offset and the limit [pageSize] on the query and then applies the
    composition of the options to it; when no generic modifier changes
    offset or limit, the rows returned are the at most [pageSize] rows that
    follow the first [(page-1)*pageSize] rows the composed query selects. *)
Theorem List_pages_then_composes {T : Type} (schema : gorm.Schema T)
    (r : model.GenericRepo) (ctx : Context) (page pageSize : Z)
    (opts : option model.QueryOptions) (w : gorm.World T) :
  gorm.Offset (gorm.clauses (gorm.stmt (model.DB r))) = None ->
  gorm.Limit (gorm.clauses (gorm.stmt (model.DB r))) = None ->
  1 <= page <= int_max -> 1 <= pageSize <= int_max ->
  (page - 1) * pageSize <= int_max ->
  let paged :=
    gorm.SetLimit pageSize
      (gorm.SetOffset ((page - 1) * pageSize)
         (gorm.WithContext ctx (model.DB r))) in
  let query := model.applyQueryOptions paged opts in
  model.List schema r ctx page pageSize opts w = gorm.Find schema query w
  /\ ((forall o, opts = Some o -> Forall options.keeps_window (model.Opts o)) ->
      forall rows w',
        model.List schema r ctx page pageSize opts w = (inl rows, w') ->
        (length rows <= Z.to_nat pageSize)%nat
        /\ exists stored,
             gorm.visible (gorm.conn (model.DB r)) w = inl stored
             /\ rows
                = map (gorm.preloaded schema (gorm.Preloads (gorm.stmt query)))
                    (take (Z.to_nat pageSize)
                       (drop (Z.to_nat ((page - 1) * pageSize))
                          (gorm.candidates schema
                             (gorm.clauses (gorm.stmt query)) stored)))).
Proof.
  intros Hno_offset Hno_limit Hpage Hsize Hoff paged query.
  assert (Hlist : model.List schema r ctx page pageSize opts w
                  = gorm.Find schema query w).
  { unfold model.List.
    rewrite (wrap_int_small (page - 1))
      by (unfold is_int, int_min, int_max in *; lia).
    rewrite (wrap_int_small ((page - 1) * pageSize))
      by (unfold is_int, int_min, int_max in *; nia).
    reflexivity. }
  split; [exact Hlist |].
  intros Hkeep rows w' Hrows. rewrite Hlist in Hrows.
  destruct (gorm_Find_rows schema query w w' rows Hrows)
    as (stored & Hvis & ->).
  destruct (applyQueryOptions_keeps_window paged opts Hkeep) as [Ho Hl].
  fold query in Ho, Hl.
  destruct (paged_fresh (gorm.clauses (gorm.stmt (model.DB r)))
              ((page - 1) * pageSize) pageSize Hno_offset Hno_limit
              ltac:(nia)) as [Hpo Hpl].
  change (gorm.clauses (gorm.stmt paged))
    with (gorm.set_limit pageSize
            (gorm.set_offset ((page - 1) * pageSize)
               (gorm.clauses (gorm.stmt (model.DB r))))) in Ho, Hl.
  rewrite Hpo in Ho. rewrite Hpl in Hl.
  rewrite (window_page _ ((page - 1) * pageSize) pageSize _ Ho Hl)
    by nia.
  split.
  - rewrite length_map, length_take. lia.
  - exists stored. split; [|reflexivity].
    unfold query in Hvis. rewrite applyQueryOptions_conn in Hvis.
    exact Hvis.
Qed.

Lemma List_pages_then_composes_witness :
  gorm.Offset (gorm.clauses (gorm.stmt (model.DB sample.repo))) = None
  /\ gorm.Limit (gorm.clauses (gorm.stmt (model.DB sample.repo))) = None
  /\ (1 <= 2 <= int_max) /\ (1 <= 1 <= int_max) /\ ((2 - 1) * 1 <= int_max)
  /\ (forall o, Some sample.full = Some o ->
                Forall options.keeps_window (model.Opts o))
  /\ model.List sample.schema sample.repo ∅ 2 1 (Some sample.full)
       sample.world
     = (inl [sample.loaded sample.bob],
        snd (model.List sample.schema sample.repo ∅ 2 1 (Some sample.full)
               sample.world))
  /\ (length [sample.loaded sample.bob] <= Z.to_nat 1)%nat.
Proof.
  assert (Hno : gorm.Offset (gorm.clauses (gorm.stmt (model.DB sample.repo)))
                = None) by reflexivity.
  assert (Hnl : gorm.Limit (gorm.clauses (gorm.stmt (model.DB sample.repo)))
                = None) by reflexivity.
  assert (Hpage : 1 <= 2 <= int_max) by (unfold int_max; lia).
  assert (Hsize : 1 <= 1 <= int_max) by (unfold int_max; lia).
  assert (Hoff : (2 - 1) * 1 <= int_max) by (unfold int_max; lia).
  assert (Hkeep : forall o, Some sample.full = Some o ->
                            Forall options.keeps_window (model.Opts o)).
  { intros o [= <-]. simpl. constructor; [|constructor].
    intros cs. split; reflexivity. }
  assert (Hrun : model.List sample.schema sample.repo ∅ 2 1
                   (Some sample.full) sample.world
                 = (inl [sample.loaded sample.bob],
                    snd (model.List sample.schema sample.repo ∅ 2 1
                           (Some sample.full) sample.world)))
    by (vm_compute; reflexivity).
  split; [exact Hno |]. split; [exact Hnl |].
  split; [exact Hpage |]. split; [exact Hsize |]. split; [exact Hoff |].
  split; [exact Hkeep |]. split; [exact Hrun |].
  exact (proj1 (proj2 (List_pages_then_composes sample.schema sample.repo ∅
                         2 1 (Some sample.full) sample.world
                         Hno Hnl Hpage Hsize Hoff)
                  Hkeep [sample.loaded sample.bob] _ Hrun)).
Defined.

(** C5, as stated, fails. A row-limiting modifier is applied after the
    paging and replaces its limit: page 1 of size 1 comes back with three
    rows, where the composition followed by the paging would yield one.
    And when [(page-1)*pageSize] overflows Go's [int] the offset wraps
    around: page [2^62+1] of size 4 starts at the first row. *)
Lemma List_paging_precedes_modifiers :
  (1 <= 1 /\ 1 <= 1
   /\ fst (model.List sample.schema sample.repo ∅ 1 1
             (Some (sample.limited 3)) sample.world)
      = inl [sample.alice; sample.bob; sample.carol]
   /\ ~ (length [sample.alice; sample.bob; sample.carol] <= Z.to_nat 1)%nat
   /\ fst (gorm.Find sample.schema
             (gorm.SetLimit 1
                (gorm.SetOffset ((1 - 1) * 1)
                   (model.applyQueryOptions
                      (gorm.WithContext ∅ (model.DB sample.repo))
                      (Some (sample.limited 3)))))
             sample.world)
      = inl [sample.alice])
  /\ (1 <= 2 ^ 62 + 1 <= int_max /\ 1 <= 4 <= int_max
      /\ fst (model.List sample.schema sample.repo ∅ (2 ^ 62 + 1) 4 None
                sample.world)
         = inl [sample.alice; sample.bob; sample.carol]
      /\ drop (Z.to_nat ((2 ^ 62 + 1 - 1) * 4))
           [sample.alice; sample.bob; sample.carol] = []).
Proof.
  split.
  - split; [lia |]. split; [lia |].
    split; [vm_compute; reflexivity |].
    split; [simpl; lia |]. vm_compute; reflexivity.
  - split; [unfold int_max; lia |]. split; [unfold int_max; lia |].
    split; [vm_compute; reflexivity |].
    apply drop_ge. simpl length. lia.
Qed.

(** ** WithTx *)

(** C7. [WithTx] returns a pointer to a new repository value bound to the
    transactional handle and carrying the receiver's error code; the
    receiver and every other repository on the heap stay as they were, so
    a later call through the receiver finds the handle it had. *)
Theorem WithTx_leaves_receiver (h : model.Heap) (r : nat)
    (v : model.GenericRepo) (tx : gorm.DB) :
  h !! r = Some v ->
  exists r' h',
    model.WithTx h r tx = Some (r', h')
    /\ r' <> r
    /\ h' !! r' = Some {| model.DB := tx; model.ErrorCode := model.ErrorCode v |}
    /\ h' !! r = Some v
    /\ (forall l, l <> r' -> h' !! l = h !! l)
    /\ (forall (A : Type) (method : model.GenericRepo -> A),
          model.call h' r method = model.call h r method).
Proof.
  intros Hr. unfold model.WithTx, model.alloc. rewrite Hr.
  set (l := fresh (dom h)).
  assert (Hfresh : l ∉ dom h) by apply is_fresh.
  assert (Hne : l <> r).
  { intros ->. apply Hfresh. apply elem_of_dom. eauto. }
  exists l, (<[l := {| model.DB := tx; model.ErrorCode := model.ErrorCode v |}]> h).
  split; [reflexivity |]. split; [exact Hne |].
  split; [apply lookup_insert_eq |].
  split; [rewrite lookup_insert_ne by exact Hne; exact Hr |].
  split.
  - intros l' Hl'. apply lookup_insert_ne. congruence.
  - intros A method. unfold model.call.
    rewrite lookup_insert_ne by exact Hne. reflexivity.
Qed.

Lemma WithTx_leaves_receiver_witness :
  let h : model.Heap := {[ 0%nat := sample.repo ]} in
  let tx := {| gorm.conn := gorm.Tx 0; gorm.ctx := ∅;
               gorm.stmt := gorm.no_statement |} in
  h !! 0%nat = Some sample.repo
  /\ exists r' h',
       model.WithTx h 0%nat tx = Some (r', h')
       /\ r' <> 0%nat
       /\ h' !! r'
          = Some {| model.DB := tx;
                    model.ErrorCode := model.ErrorCode sample.repo |}
       /\ h' !! 0%nat = Some sample.repo
       /\ (forall l, l <> r' -> h' !! l = h !! l)
       /\ (forall (A : Type) (method : model.GenericRepo -> A),
             model.call h' 0%nat method = model.call h 0%nat method).
Proof.
  intros h tx.
  assert (Hr : h !! 0%nat = Some sample.repo) by reflexivity.
  split; [exact Hr |].
  exact (WithTx_leaves_receiver h 0%nat sample.repo tx Hr).
Defined.

(** ** Transaction *)




(** A statement on a transactional handle leaves the committed rows
    alone. *)
Lemma Create_in_transaction {T : Type} (schema : gorm.Schema T)
    (db : gorm.DB) (id : nat) (row : T) (w : gorm.World T) :
  gorm.conn db = gorm.Tx id ->
  gorm.committed (snd (gorm.Create schema db row w)) = gorm.committed w.
Proof.
  intros Hc. unfold gorm.Create, gorm.run. simpl. rewrite Hc.
  destruct (gorm.fault w); [reflexivity |]. simpl.
  destruct (gorm.pending w !! id); [|reflexivity].
  destruct (gorm.key schema row =? 0); [reflexivity |].
  destruct (existsb _ _); reflexivity.
Qed.

(** X21. On a repository bound to the pool and a store that accepts
    BEGIN, a closure that creates a row through the repository rebound to
    the transaction and then fails gets its error back and leaves no trace
    in the committed rows, whether the store took the row or not. *)
Lemma Transaction_hides_failed_create {T : Type} (schema : gorm.Schema T)
    (r : model.GenericRepo) (ctx : Context) (row : T) (e : error)
    (w : gorm.World T) :
  gorm.conn (model.DB r) = gorm.Pool ->
  gorm.fault w = None ->
  let fn := fun (tx : gorm.DB) (w0 : gorm.World T) =>
              let rtx := {| model.DB := tx;
                            model.ErrorCode := model.ErrorCode r |} in
              (Some e, snd (model.Create schema rtx ctx row w0)) in
  fst (model.Transaction r ctx fn w) = Some e
  /\ gorm.committed (snd (model.Transaction r ctx fn w)) = gorm.committed w.
Proof.
  intros Hpool Hfault fn.
  unfold model.Transaction, gorm.Transaction, fn. simpl.
  rewrite Hpool, Hfault. simpl.
  split; [reflexivity |].
  unfold model.Create.
  rewrite (Create_in_transaction schema _ (gorm.next_tx w)).
  - reflexivity.
  - reflexivity.
Qed.

Lemma Transaction_hides_failed_create_witness :
  gorm.conn (model.DB sample.repo) = gorm.Pool
  /\ gorm.fault sample.world = None
  /\ gorm.committed
       (snd (model.Transaction sample.repo ∅
               (fun tx w0 =>
                  (Some sample.boom,
                   snd (model.Create sample.schema
                          {| model.DB := tx;
                             model.ErrorCode := model.ErrorCode sample.repo |}
                          ∅ sample.dave w0)))
               sample.world))
     = gorm.committed sample.world.
Proof.
  assert (Hpool : gorm.conn (model.DB sample.repo) = gorm.Pool)
    by reflexivity.
  assert (Hfault : gorm.fault sample.world = None) by reflexivity.
  split; [exact Hpool |]. split; [exact Hfault |].
  exact (proj2 (Transaction_hides_failed_create sample.schema sample.repo ∅
                  sample.dave sample.boom sample.world Hpool Hfault)).
Defined.

(** ** Request identifiers *)

Lemma uuid_String_length (u : Z) : String.length (uuid.String u) = 36%nat.
Proof. reflexivity. Qed.

Lemma uuid_String_nonempty (u : Z) : uuid.String u <> "".
Proof. intros H. apply (f_equal String.length) in H. discriminate H. Qed.

Lemma nonempty_string_Some (v : any) (s : string) :
  response.nonempty_string v = Some s <-> v = Str s /\ s <> "".
Proof.
  unfold response.nonempty_string. destruct v as [|s'| |]; simpl;
    try (split; [discriminate | intros [[=] _]]).
  destruct (decide (s' = "")) as [He|Hne].
  - rewrite bool_decide_eq_false_2 by (intros H; exact (H He)).
    split; [discriminate | intros [[= ->] H]; contradiction].
  - rewrite bool_decide_eq_true_2 by exact Hne.
    split; [intros [= ->]; split; [reflexivity | exact Hne]
           | intros [[= ->] _]; reflexivity].
Qed.

Lemma getRequestID_nonempty (c : gin.Context) (rnd : Z) :
  fst (response.getRequestID c rnd) <> "".
Proof.
  unfold response.getRequestID.
  destruct (decide (gin.GetHeader c "X-Request-ID" = "")) as [He|Hne].
  - rewrite bool_decide_eq_false_2 by (intros H; exact (H He)).
    destruct (gin.Get c "request_id" ≫= response.nonempty_string)
      as [s|] eqn:Hkey.
    + destruct (gin.Get c "request_id") as [v|]; [|discriminate Hkey].
      simpl in Hkey. apply nonempty_string_Some in Hkey. simpl. tauto.
    + destruct (response.nonempty_string _) as [s|] eqn:Hval; simpl.
      * apply nonempty_string_Some in Hval. tauto.
      * apply uuid_String_nonempty.
  - rewrite bool_decide_eq_true_2 by exact Hne. exact Hne.
Qed.

(** C10. Every response written by [Success], [SuccessNoData] or [Error]
    carries a non-empty request id. The lookup takes the X-Request-ID
    header, else the string under the gin key, else the string in the
    request context, each when present and not empty, and else a freshly
    generated UUID, which it stores under the gin key. *)
Theorem responses_carry_request_id (specs : errspec.Table) (c : gin.Context)
    (now rnd : Z) :
  (forall (D : Type) (data : D) (msg : list string),
      response.RequestID (snd (snd (response.Success c data msg now rnd))) <> "")
  /\ (forall msg : list string,
        response.RequestID (snd (snd (response.SuccessNoData c msg now rnd)))
        <> "")
  /\ (forall err : error,
        response.RequestID (snd (snd (response.Error specs c err now rnd)))
        <> "")
  /\ (gin.GetHeader c "X-Request-ID" <> "" ->
      response.getRequestID c rnd = (gin.GetHeader c "X-Request-ID", c))
  /\ (gin.GetHeader c "X-Request-ID" = "" ->
      forall s, gin.Get c "request_id" = Some (Str s) -> s <> "" ->
      response.getRequestID c rnd = (s, c))
  /\ (gin.GetHeader c "X-Request-ID" = "" ->
      gin.Get c "request_id" ≫= response.nonempty_string = None ->
      forall s, Value (gin.ReqContext (gin.Req c)) "request_id" = Str s ->
      s <> "" ->
      response.getRequestID c rnd = (s, c))
  /\ (gin.GetHeader c "X-Request-ID" = "" ->
      gin.Get c "request_id" ≫= response.nonempty_string = None ->
      response.nonempty_string
        (Value (gin.ReqContext (gin.Req c)) "request_id") = None ->
      response.getRequestID c rnd
      = (uuid.String (uuid.New rnd),
         gin.Set_ c "request_id" (Str (uuid.String (uuid.New rnd))))).
Proof.
  pose proof (getRequestID_nonempty c rnd) as Hid.
  split; [|split; [|split]].
  - intros D data msg. unfold response.Success.
    destruct (response.getRequestID c rnd) as [id c']. exact Hid.
  - intros msg. unfold response.SuccessNoData.
    destruct (response.getRequestID c rnd) as [id c']. exact Hid.
  - intros err. unfold response.Error.
    destruct (response.getRequestID c rnd) as [id c']. exact Hid.
  - unfold response.getRequestID. split; [|split; [|split]].
    + intros Hh. rewrite bool_decide_eq_true_2 by exact Hh. reflexivity.
    + intros Hh s Hkey Hs.
      rewrite bool_decide_eq_false_2 by (intros H; exact (H Hh)).
      rewrite Hkey. simpl.
      rewrite (proj2 (nonempty_string_Some (Str s) s) (conj eq_refl Hs)).
      reflexivity.
    + intros Hh Hkey s Hval Hs.
      rewrite bool_decide_eq_false_2 by (intros H; exact (H Hh)).
      rewrite Hkey, Hval.
      rewrite (proj2 (nonempty_string_Some (Str s) s) (conj eq_refl Hs)).
      reflexivity.
    + intros Hh Hkey Hval.
      rewrite bool_decide_eq_false_2 by (intros H; exact (H Hh)).
      rewrite Hkey, Hval. reflexivity.
Qed.

Lemma responses_carry_request_id_witness :
  gin.GetHeader sample.tagged "X-Request-ID" <> ""
  /\ response.getRequestID sample.tagged 12345 = ("abc", sample.tagged)
  /\ gin.GetHeader sample.bare "X-Request-ID" = ""
  /\ gin.Get sample.bare "request_id" ≫= response.nonempty_string = None
  /\ response.nonempty_string
       (Value (gin.ReqContext (gin.Req sample.bare)) "request_id") = None
  /\ response.getRequestID sample.bare 12345
     = ("00000000-0000-4000-8000-000000003039",
        gin.Set_ sample.bare "request_id"
          (Str "00000000-0000-4000-8000-000000003039"))
  /\ response.RequestID
       (snd (snd (response.Error sample.specs sample.bare sample.boom 0 12345)))
     <> "".
Proof.
  assert (Htag : gin.GetHeader sample.tagged "X-Request-ID" <> "")
    by (vm_compute; discriminate).
  assert (Hh : gin.GetHeader sample.bare "X-Request-ID" = "") by reflexivity.
  assert (Hkey : gin.Get sample.bare "request_id" ≫= response.nonempty_string
                 = None) by reflexivity.
  assert (Hval : response.nonempty_string
                   (Value (gin.ReqContext (gin.Req sample.bare)) "request_id")
                 = None) by reflexivity.
  destruct (responses_carry_request_id sample.specs sample.tagged 0 12345)
    as (_ & _ & _ & Hheader & _).
  destruct (responses_carry_request_id sample.specs sample.bare 0 12345)
    as (_ & _ & Herror & _ & _ & _ & Hfresh).
  split; [exact Htag |]. split; [exact (Hheader Htag) |].
  split; [exact Hh |]. split; [exact Hkey |]. split; [exact Hval |].
  split; [exact (Hfresh Hh Hkey Hval) |]. exact (Herror sample.boom).
Defined.

(** * Further properties *)

(** ** Request and trace identifiers *)

(** Either an id is found, and then the context is returned as it is,
    whatever the randomness; or every source is empty and a new id is
    generated and stored. *)
Lemma getRequestID_cases (c : gin.Context) (rnd : Z) :
  (exists s, s <> ""
             /\ forall rnd', response.getRequestID c rnd' = (s, c))
  \/ (gin.GetHeader c "X-Request-ID" = ""
      /\ response.getRequestID c rnd
         = (uuid.String (uuid.New rnd),
            gin.Set_ c "request_id" (Str (uuid.String (uuid.New rnd))))).
Proof.
  unfold response.getRequestID.
  destruct (decide (gin.GetHeader c "X-Request-ID" = "")) as [He|Hne].
  - rewrite bool_decide_eq_false_2 by (intros H; exact (H He)).
    destruct (gin.Get c "request_id" ≫= response.nonempty_string)
      as [s|] eqn:Hkey.
    { left. exists s. split; [|intros rnd'; reflexivity].
      destruct (gin.Get c "request_id") as [v|]; [|discriminate Hkey].
      simpl in Hkey. apply nonempty_string_Some in Hkey. tauto. }
    destruct (response.nonempty_string _) as [s|] eqn:Hval.
    { left. exists s. split; [|intros rnd'; reflexivity].
      apply nonempty_string_Some in Hval. tauto. }
    right. split; [exact He | reflexivity].
  - rewrite bool_decide_eq_true_2 by exact Hne. left.
    exists (gin.GetHeader c "X-Request-ID").
    split; [exact Hne | intros rnd'; reflexivity].
Qed.

(** X1. Looking the request id up a second time, on the context the first
    lookup returned, yields the same id and changes nothing any more,
    whatever randomness is on offer: the responses of one request share
    their id. *)
Theorem getRequestID_idempotent (c : gin.Context) (rnd rnd' : Z) :
  response.getRequestID (snd (response.getRequestID c rnd)) rnd'
  = response.getRequestID c rnd.
Proof.
  destruct (getRequestID_cases c rnd) as [(s & _ & Hfound) | [Hh Hnew]].
  - rewrite (Hfound rnd). simpl. apply Hfound.
  - rewrite Hnew. simpl. unfold response.getRequestID at 1.
    change (gin.GetHeader (gin.Set_ c "request_id" _) "X-Request-ID")
      with (gin.GetHeader c "X-Request-ID").
    rewrite bool_decide_eq_false_2 by (intros H; exact (H Hh)).
    unfold gin.Get, gin.Set_. simpl. rewrite lookup_insert_eq.
    reflexivity.
Qed.

(** X2. The lookup of the request id touches nothing but the gin key
    [request_id]: the request, the remote address and every other key
    stay as they were, and a non-empty string already stored under
    [request_id] is never replaced. *)
Theorem getRequestID_frame (c : gin.Context) (rnd : Z) :
  let c' := snd (response.getRequestID c rnd) in
  gin.Req c' = gin.Req c
  /\ gin.RemoteIP c' = gin.RemoteIP c
  /\ (forall key, key <> "request_id" -> gin.Get c' key = gin.Get c key)
  /\ (forall s, gin.Get c "request_id" = Some (Str s) -> s <> "" ->
      gin.Get c' "request_id" = Some (Str s)).
Proof.
  intros c'. subst c'.
  assert (Hkeep : forall s, gin.Get c "request_id" = Some (Str s) -> s <> "" ->
                  snd (response.getRequestID c rnd) = c).
  { intros s Hs Hne. unfold response.getRequestID.
    destruct (bool_decide (gin.GetHeader c "X-Request-ID" <> ""));
      [reflexivity |].
    rewrite Hs. simpl.
    rewrite (proj2 (nonempty_string_Some (Str s) s) (conj eq_refl Hne)).
    reflexivity. }
  destruct (getRequestID_cases c rnd) as [(s & _ & Hfound) | [Hh Hnew]].
  - rewrite (Hfound rnd). simpl. repeat split; auto.
  - split; [rewrite Hnew; reflexivity |].
    split; [rewrite Hnew; reflexivity |]. split.
    + intros key Hkey. rewrite Hnew. unfold gin.Get, gin.Set_. simpl.
      apply lookup_insert_ne. congruence.
    + intros s Hs Hne. rewrite (Hkeep s Hs Hne). exact Hs.
Qed.

(** X3. The two identifiers are looked up in different orders: for the
    request id the header wins over the gin key, for the trace id the gin
    key wins over the header. *)
Theorem identifier_precedence (c : gin.Context) (rnd : Z) (h k : string) :
  h <> "" -> k <> "" ->
  (gin.GetHeader c "X-Request-ID" = h ->
   gin.Get c "request_id" = Some (Str k) ->
   fst (response.getRequestID c rnd) = h)
  /\ (gin.GetHeader c "X-Trace-ID" = h ->
      gin.Get c "trace_id" = Some (Str k) ->
      response.getTraceIDFromContext c = k).
Proof.
  intros Hh Hk. split.
  - intros Hhead _. unfold response.getRequestID. rewrite Hhead.
    rewrite bool_decide_eq_true_2 by exact Hh. reflexivity.
  - intros _ Hkey. unfold response.getTraceIDFromContext. rewrite Hkey.
    simpl.
    rewrite (proj2 (nonempty_string_Some (Str k) k) (conj eq_refl Hk)).
    reflexivity.
Qed.

Lemma identifier_precedence_witness :
  "from-header" <> "" /\ "from-key" <> ""
  /\ gin.GetHeader sample.both "X-Request-ID" = "from-header"
  /\ gin.Get sample.both "request_id" = Some (Str "from-key")
  /\ gin.GetHeader sample.both "X-Trace-ID" = "from-header"
  /\ gin.Get sample.both "trace_id" = Some (Str "from-key")
  /\ fst (response.getRequestID sample.both 7) = "from-header"
  /\ response.getTraceIDFromContext sample.both = "from-key".
Proof.
  assert (Hh : "from-header" <> "") by discriminate.
  assert (Hk : "from-key" <> "") by discriminate.
  assert (H1 : gin.GetHeader sample.both "X-Request-ID" = "from-header")
    by (vm_compute; reflexivity).
  assert (H2 : gin.Get sample.both "request_id" = Some (Str "from-key"))
    by (vm_compute; reflexivity).
  assert (H3 : gin.GetHeader sample.both "X-Trace-ID" = "from-header")
    by (vm_compute; reflexivity).
  assert (H4 : gin.Get sample.both "trace_id" = Some (Str "from-key"))
    by (vm_compute; reflexivity).
  destruct (identifier_precedence sample.both 7 "from-header" "from-key"
              Hh Hk) as [Hreq Htrace].
  split; [exact Hh |]. split; [exact Hk |]. split; [exact H1 |].
  split; [exact H2 |]. split; [exact H3 |]. split; [exact H4 |].
  split; [exact (Hreq H1 H2) | exact (Htrace H3 H4)].
Defined.

(** X4. The trace id of a request is empty exactly when none of its three
    sources (gin key, request context, X-Trace-ID header) holds a non-empty
    string; unlike the request id, nothing is generated in its place. *)
Theorem getTraceIDFromContext_empty (c : gin.Context) :
  response.getTraceIDFromContext c = ""
  <-> (gin.Get c "trace_id" ≫= response.nonempty_string = None
       /\ response.nonempty_string
            (Value (gin.ReqContext (gin.Req c)) "trace_id") = None
       /\ gin.GetHeader c "X-Trace-ID" = "").
Proof.
  unfold response.getTraceIDFromContext.
  destruct (gin.Get c "trace_id" ≫= response.nonempty_string)
    as [s|] eqn:Hkey.
  { assert (Hs : s <> "").
    { destruct (gin.Get c "trace_id") as [v|]; [|discriminate Hkey].
      simpl in Hkey. apply nonempty_string_Some in Hkey. tauto. }
    split; [intros H; contradiction | intros [H _]; discriminate H]. }
  destruct (response.nonempty_string _) as [s|] eqn:Hval.
  { apply nonempty_string_Some in Hval. destruct Hval as [_ Hs].
    split; [intros H; contradiction | intros (_ & H & _); discriminate H]. }
  split; [intros H; auto | intros (_ & _ & H); exact H].
Qed.

(** ** From the repository to the response *)

(** X5. A read that finds no row ends, once its error is handed to
    [Error], in a response with the code, the HTTP status (500 when the
    specification has none) and the message of [errspec.ErrRecordNotExist],
    and with a request id. *)
Theorem Error_of_missing_row {T : Type} (schema : gorm.Schema T)
    (specs : errspec.Table) (r : model.GenericRepo) (ctx : Context)
    (id : any) (opts : option model.QueryOptions) (w w' : gorm.World T)
    (c : gin.Context) (now rnd : Z) :
  (id <> Nil \/ exists o, opts = Some o /\ model.Condition o <> "") ->
  gorm.First schema
    (model.applyQueryOptions (gorm.WithContext ctx (model.DB r)) opts)
    (if bool_decide (id <> Nil) then [id] else []) w
  = (inr ErrRecordNotFound, w') ->
  exists e,
    fst (model.Get schema specs r ctx id opts w) = inr e
    /\ fst (snd (response.Error specs c e now rnd))
       = default response.StatusInternalServerError
           (errspec.spec_http (errspec.ErrRecordNotExist specs))
    /\ response.Code (snd (snd (response.Error specs c e now rnd)))
       = errspec.Code (errspec.ErrRecordNotExist specs)
    /\ response.Message (snd (snd (response.Error specs c e now rnd)))
       = errspec.spec_msg (errspec.ErrRecordNotExist specs)
    /\ response.RequestID (snd (snd (response.Error specs c e now rnd)))
       <> "".
Proof.
  intros Hreach Hfirst.
  rewrite (Get_reaches_store schema specs r ctx id opts w Hreach), Hfirst.
  simpl. eexists. split; [reflexivity |].
  pose proof (getRequestID_nonempty c rnd) as Hid.
  unfold response.Error.
  destruct (response.getRequestID c rnd) as [rid c']. simpl in *.
  repeat split; auto.
Qed.

Lemma Error_of_missing_row_witness :
  let q := model.applyQueryOptions (gorm.WithContext ∅ (model.DB sample.repo))
             None in
  let w' := snd (gorm.First sample.schema q [Int 9] sample.world) in
  (Int 9 <> Nil \/ exists o, None = Some o /\ model.Condition o <> "")
  /\ gorm.First sample.schema q [Int 9] sample.world
     = (inr ErrRecordNotFound, w')
  /\ exists e,
       fst (model.Get sample.schema sample.specs sample.repo ∅ (Int 9) None
              sample.world) = inr e
       /\ fst (snd (response.Error sample.specs sample.bare e 0 7)) = 404
       /\ response.Code (snd (snd (response.Error sample.specs sample.bare
                                     e 0 7))) = 20001.
Proof.
  intros q w'.
  assert (Hreach : Int 9 <> Nil
                   \/ exists o, None = Some o /\ model.Condition o <> "")
    by (left; discriminate).
  assert (Hfirst : gorm.First sample.schema q [Int 9] sample.world
                   = (inr ErrRecordNotFound, w')) by (vm_compute; reflexivity).
  split; [exact Hreach |]. split; [exact Hfirst |].
  destruct (Error_of_missing_row sample.schema sample.specs sample.repo ∅
              (Int 9) None sample.world w' sample.bare 0 7 Hreach Hfirst)
    as (e & He & Hstatus & Hcode & _).
  exists e. split; [exact He |]. split; [exact Hstatus | exact Hcode].
Defined.

(** X6. A store error that [Get] does not classify reaches the response
    as it is: when it carries neither a code nor an HTTP status, [Error]
    answers 500 with the code of [errspec.ErrUnknown] and puts the store's
    own error text in the message. *)
Theorem Error_of_store_error {T : Type} (schema : gorm.Schema T)
    (specs : errspec.Table) (r : model.GenericRepo) (ctx : Context)
    (id : any) (opts : option model.QueryOptions) (w w' : gorm.World T)
    (err : error) (c : gin.Context) (now rnd : Z) :
  (id <> Nil \/ exists o, opts = Some o /\ model.Condition o <> "") ->
  gorm.First schema
    (model.applyQueryOptions (gorm.WithContext ctx (model.DB r)) opts)
    (if bool_decide (id <> Nil) then [id] else []) w = (inr err, w') ->
  err <> ErrRecordNotFound ->
  error_Code err = None -> error_HttpStatus err = None ->
  fst (model.Get schema specs r ctx id opts w) = inr err
  /\ fst (snd (response.Error specs c err now rnd))
     = response.StatusInternalServerError
  /\ response.Code (snd (snd (response.Error specs c err now rnd)))
     = errspec.Code (errspec.ErrUnknown specs)
  /\ response.Message (snd (snd (response.Error specs c err now rnd)))
     = error_Error err.
Proof.
  intros Hreach Hfirst Hne Hcode Hhttp.
  rewrite (Get_reaches_store schema specs r ctx id opts w Hreach), Hfirst.
  split.
  - unfold model.classify. destruct err; try reflexivity. contradiction.
  - unfold response.Error.
    destruct (response.getRequestID c rnd) as [rid c']. simpl.
    rewrite Hcode, Hhttp. repeat split; reflexivity.
Qed.

Lemma Error_of_store_error_witness :
  let q := model.applyQueryOptions (gorm.WithContext ∅ (model.DB sample.repo))
             None in
  let w' := snd (gorm.First sample.schema q [Int 9] sample.down) in
  (Int 9 <> Nil \/ exists o, None = Some o /\ model.Condition o <> "")
  /\ gorm.First sample.schema q [Int 9] sample.down = (inr sample.broken, w')
  /\ sample.broken <> ErrRecordNotFound
  /\ error_Code sample.broken = None
  /\ error_HttpStatus sample.broken = None
  /\ response.Message
       (snd (snd (response.Error sample.specs sample.bare sample.broken 0 7)))
     = "dial tcp: connection refused".
Proof.
  intros q w'.
  assert (Hreach : Int 9 <> Nil
                   \/ exists o, None = Some o /\ model.Condition o <> "")
    by (left; discriminate).
  assert (Hfirst : gorm.First sample.schema q [Int 9] sample.down
                   = (inr sample.broken, w')) by (vm_compute; reflexivity).
  assert (Hne : sample.broken <> ErrRecordNotFound) by discriminate.
  assert (Hc : error_Code sample.broken = None) by reflexivity.
  assert (Hs : error_HttpStatus sample.broken = None) by reflexivity.
  split; [exact Hreach |]. split; [exact Hfirst |]. split; [exact Hne |].
  split; [exact Hc |]. split; [exact Hs |].
  exact (proj2 (proj2 (proj2
    (Error_of_store_error sample.schema sample.specs sample.repo ∅ (Int 9)
       None sample.down w' sample.broken sample.bare 0 7
       Hreach Hfirst Hne Hc Hs)))).
Defined.

(** ** Reads, writes and what they leave in the store *)

Lemma only_sent_refl {T : Type} (c : gorm.Conn) (w : gorm.World T) :
  gorm.only_sent c w w.
Proof.
  split; [reflexivity |]. split; [reflexivity |].
  exists []. split; [rewrite app_nil_r; reflexivity | constructor].
Qed.

Lemma only_sent_record {T : Type} (c : gorm.Conn) (k : gorm.Kind)
    (s : gorm.Statement) (w w' : gorm.World T) :
  gorm.only_sent c w w' ->
  gorm.only_sent c w (gorm.record (gorm.Exec k c s) w').
Proof.
  intros (Hc & Hp & evs & Hj & Hall).
  split; [exact Hc |]. split; [exact Hp |].
  exists (evs ++ [gorm.Exec k c s])%list. simpl. rewrite Hj, app_assoc.
  split; [reflexivity |].
  apply Forall_app. split; [exact Hall |].
  constructor; [eauto | constructor].
Qed.

Lemma only_sent_trans {T : Type} (c : gorm.Conn) (w1 w2 w3 : gorm.World T) :
  gorm.only_sent c w1 w2 -> gorm.only_sent c w2 w3 -> gorm.only_sent c w1 w3.
Proof.
  intros (Hc & Hp & evs & Hj & Hall) (Hc' & Hp' & evs' & Hj' & Hall').
  split; [congruence |]. split; [congruence |].
  exists (evs ++ evs')%list. rewrite Hj', Hj, app_assoc.
  split; [reflexivity | apply Forall_app; split; assumption].
Qed.

Lemma eager_only_sent {T : Type} (schema : gorm.Schema T) (db : gorm.DB)
    (rows : list T) (w : gorm.World T) :
  gorm.only_sent (gorm.conn db) w (snd (gorm.eager schema db rows w)).
Proof.
  unfold gorm.eager. destruct (forallb _ _); simpl; [|apply only_sent_refl].
  destruct rows as [|row rest]; [apply only_sent_refl |].
  generalize (gorm.Preloads (gorm.stmt db)) as names.
  assert (H : forall (names : list string) (w' : gorm.World T),
             gorm.only_sent (gorm.conn db) w w' ->
             gorm.only_sent (gorm.conn db) w
               (fold_left
                  (fun w1 (_ : string) =>
                     gorm.record
                       (gorm.Exec gorm.QPreload (gorm.conn db) (gorm.stmt db))
                       w1)
                  names w')).
  { intros names. induction names as [|n names IH]; intros w' Hw'; simpl.
    - exact Hw'.
    - apply IH. apply only_sent_record. exact Hw'. }
  intros names. apply H. apply only_sent_refl.
Qed.

Lemma run_only_sent {T A : Type} (k : gorm.Kind) (db : gorm.DB)
    (f : list T -> gorm.World T -> (A + error) * gorm.World T)
    (w : gorm.World T) :
  (forall rows w1, gorm.only_sent (gorm.conn db) w1 (snd (f rows w1))) ->
  gorm.only_sent (gorm.conn db) w (snd (gorm.run k db f w)).
Proof.
  intros Hf. unfold gorm.run.
  assert (Hrec : gorm.only_sent (gorm.conn db) w
                   (gorm.record
                      (gorm.Exec k (gorm.conn db) (gorm.stmt db)) w))
    by (apply only_sent_record, only_sent_refl).
  simpl. destruct (gorm.fault w); [exact Hrec |].
  destruct (gorm.visible _ _); [|exact Hrec].
  exact (only_sent_trans _ _ _ _ Hrec (Hf _ _)).
Qed.

Lemma First_only_sent {T : Type} (schema : gorm.Schema T) (db : gorm.DB)
    (conds : list any) (w : gorm.World T) :
  gorm.only_sent (gorm.conn db) w (snd (gorm.First schema db conds w)).
Proof.
  unfold gorm.First.
  set (q := gorm.with_clauses db _).
  change (gorm.conn db) with (gorm.conn q).
  apply run_only_sent. intros rows w1.
  destruct (gorm.window _ _) as [|row rest]; [apply only_sent_refl |].
  pose proof (eager_only_sent schema q [row] w1) as H.
  destruct (gorm.eager schema q [row] w1) as [[[|l ls]|err] w2]; exact H.
Qed.

Lemma classify_world {T : Type} (specs : errspec.Table) (ctx : Context)
    (res : (T + error) * gorm.World T) :
  snd (model.classify specs ctx res) = snd res.
Proof.
  destruct res as [[entity|err] w]; simpl; [reflexivity |].
  destruct (is_ErrRecordNotFound err); reflexivity.
Qed.

(** X7. The reads are reads: [Get], [List] and [Count] leave the rows of
    the store, committed or pending, as they were, and whatever they send
    are statements on the connection of the repository's own handle. *)
Theorem reads_leave_the_rows {T : Type} (schema : gorm.Schema T)
    (specs : errspec.Table) (r : model.GenericRepo) (ctx : Context)
    (id : any) (page pageSize : Z) (opts : option model.QueryOptions)
    (w : gorm.World T) :
  gorm.only_sent (gorm.conn (model.DB r)) w
    (snd (model.Get schema specs r ctx id opts w))
  /\ gorm.only_sent (gorm.conn (model.DB r)) w
       (snd (model.List schema r ctx page pageSize opts w))
  /\ gorm.only_sent (gorm.conn (model.DB r)) w
       (snd (model.Count schema r ctx opts w)).
Proof.
  split; [|split].
  - unfold model.Get.
    set (q := model.applyQueryOptions _ opts).
    assert (Hq : gorm.conn q = gorm.conn (model.DB r))
      by (unfold q; rewrite applyQueryOptions_conn; reflexivity).
    assert (Hfirst : forall conds,
               gorm.only_sent (gorm.conn (model.DB r)) w
                 (snd (model.classify specs ctx
                         (gorm.First schema q conds w)))).
    { intros conds. rewrite classify_world, <- Hq.
      apply First_only_sent. }
    destruct (bool_decide (id <> Nil)); [apply Hfirst |].
    destruct opts as [o|]; [|apply only_sent_refl].
    destruct (bool_decide (model.Condition o <> ""));
      [apply Hfirst | apply only_sent_refl].
  - unfold model.List, gorm.Find.
    set (q := model.applyQueryOptions _ opts).
    assert (Hq : gorm.conn q = gorm.conn (model.DB r))
      by (unfold q; rewrite applyQueryOptions_conn; reflexivity).
    rewrite <- Hq. apply run_only_sent. intros rows w1.
    apply eager_only_sent.
  - unfold model.Count, gorm.Count.
    set (q := model.applyQueryOptions _ opts).
    assert (Hq : gorm.conn q = gorm.conn (model.DB r))
      by (unfold q; rewrite applyQueryOptions_conn; reflexivity).
    rewrite <- Hq. apply run_only_sent. intros rows w1.
    apply only_sent_refl.
Qed.

Lemma visible_record {T : Type} (c : gorm.Conn) (e : gorm.Event)
    (w : gorm.World T) :
  gorm.visible c (gorm.record e w) = gorm.visible c w.
Proof. destruct c; reflexivity. Qed.


Lemma existsb_none {A : Type} (p : A -> bool) (l : list A) :
  (forall x, x ∈ l -> p x = false) -> existsb p l = false.
Proof.
  induction l as [|x l IH]; intros H; simpl; [reflexivity |].
  rewrite (H x) by left. apply IH. intros y Hy. apply H. right. exact Hy.
Qed.

(** A successful [Create]: for a row that brings a key no visible row
    has, the connection sees the row after the rows it saw before. *)
Lemma Create_ok {T : Type} (schema : gorm.Schema T) (db : gorm.DB) (row : T)
    (rows : list T) (w : gorm.World T) :
  gorm.fault w = None ->
  gorm.visible (gorm.conn db) w = inl rows ->
  gorm.key schema row <> 0 ->
  (forall other, other ∈ rows -> gorm.key schema other <> gorm.key schema row) ->
  gorm.Create schema db row w
  = (None,
     gorm.put_rows (gorm.conn db) (rows ++ [row])
       (gorm.record (gorm.Exec gorm.QCreate (gorm.conn db) (gorm.stmt db)) w)).
Proof.
  intros Hf Hv Hkey Hfree. unfold gorm.Create, gorm.run. simpl.
  rewrite Hf, visible_record, Hv.
  destruct (gorm.key schema row =? 0) eqn:Hz;
    [apply Z.eqb_eq in Hz; contradiction |].
  rewrite existsb_none; [reflexivity |].
  intros other Hother. apply Z.eqb_neq. exact (Hfree other Hother).
Qed.



Lemma sample_keys_free :
  forall row, row ∈ [sample.alice; sample.bob; sample.carol] ->
    gorm.key sample.schema row <> gorm.key sample.schema sample.dave.
Proof.
  intros row Hrow. apply list_elem_of_In in Hrow. simpl in Hrow.
  destruct Hrow as [<- | [<- | [<- | []]]]; discriminate.
Qed.


(** ** Transactions and the repository they are used through *)

(** X9. On a repository bound to the pool and a store that answers, a
    closure that creates a row, which brings a key no committed row has,
    through the repository rebound to the transaction and returns what
    [Create] returned commits it: [Transaction] returns nil and the row
    has joined the committed rows. *)
Theorem Transaction_commits_create {T : Type} (schema : gorm.Schema T)
    (r : model.GenericRepo) (ctx : Context) (row : T) (w : gorm.World T) :
  gorm.conn (model.DB r) = gorm.Pool ->
  gorm.fault w = None ->
  gorm.key schema row <> 0 ->
  (forall other, other ∈ gorm.committed w ->
     gorm.key schema other <> gorm.key schema row) ->
  let fn := fun (tx : gorm.DB) (w0 : gorm.World T) =>
              model.Create schema
                {| model.DB := tx; model.ErrorCode := model.ErrorCode r |}
                ctx row w0 in
  fst (model.Transaction r ctx fn w) = None
  /\ gorm.committed (snd (model.Transaction r ctx fn w))
     = (gorm.committed w ++ [row])%list.
Proof.
  intros Hpool Hf Hown Huniq fn.
  unfold model.Transaction, gorm.Transaction, fn. simpl.
  rewrite Hpool, Hf. simpl. unfold model.Create.
  rewrite (Create_ok schema _ row (gorm.committed w)).
  - simpl. rewrite lookup_insert_eq. split; reflexivity.
  - reflexivity.
  - simpl. rewrite lookup_insert_eq. reflexivity.
  - exact Hown.
  - exact Huniq.
Qed.

Lemma Transaction_commits_create_witness :
  gorm.conn (model.DB sample.repo) = gorm.Pool
  /\ gorm.fault sample.world = None
  /\ gorm.key sample.schema sample.dave <> 0
  /\ (forall other, other ∈ gorm.committed sample.world ->
        gorm.key sample.schema other <> gorm.key sample.schema sample.dave)
  /\ gorm.committed
       (snd (model.Transaction sample.repo ∅
               (fun tx w0 =>
                  model.Create sample.schema
                    {| model.DB := tx;
                       model.ErrorCode := model.ErrorCode sample.repo |}
                    ∅ sample.dave w0)
               sample.world))
     = [sample.alice; sample.bob; sample.carol; sample.dave].
Proof.
  assert (Hpool : gorm.conn (model.DB sample.repo) = gorm.Pool)
    by reflexivity.
  assert (Hf : gorm.fault sample.world = None) by reflexivity.
  assert (Hown : gorm.key sample.schema sample.dave <> 0) by discriminate.
  split; [exact Hpool |]. split; [exact Hf |]. split; [exact Hown |].
  split; [exact sample_keys_free |].
  exact (proj2 (Transaction_commits_create sample.schema sample.repo ∅
                  sample.dave sample.world Hpool Hf Hown sample_keys_free)).
Defined.

(** X10. Rebinding is what makes a write part of the transaction: a
    closure that creates a row, which brings a key no committed row has,
    through the outer repository, bound to the pool, and then fails gets
    its error back from [Transaction], and the row stays committed all the
    same. *)
Theorem Transaction_outer_write_survives {T : Type} (schema : gorm.Schema T)
    (r : model.GenericRepo) (ctx : Context) (row : T) (e : error)
    (w : gorm.World T) :
  gorm.conn (model.DB r) = gorm.Pool ->
  gorm.fault w = None ->
  gorm.key schema row <> 0 ->
  (forall other, other ∈ gorm.committed w ->
     gorm.key schema other <> gorm.key schema row) ->
  let fn := fun (_ : gorm.DB) (w0 : gorm.World T) =>
              (Some e, snd (model.Create schema r ctx row w0)) in
  fst (model.Transaction r ctx fn w) = Some e
  /\ gorm.committed (snd (model.Transaction r ctx fn w))
     = (gorm.committed w ++ [row])%list.
Proof.
  intros Hpool Hf Hown Huniq fn.
  unfold model.Transaction, gorm.Transaction, fn. simpl.
  rewrite Hpool, Hf. simpl.
  split; [reflexivity |].
  unfold model.Create.
  rewrite (Create_ok schema _ row (gorm.committed w)).
  - simpl. rewrite Hpool. reflexivity.
  - reflexivity.
  - simpl. rewrite Hpool. reflexivity.
  - exact Hown.
  - exact Huniq.
Qed.

Lemma Transaction_outer_write_survives_witness :
  gorm.conn (model.DB sample.repo) = gorm.Pool
  /\ gorm.fault sample.world = None
  /\ gorm.key sample.schema sample.dave <> 0
  /\ (forall other, other ∈ gorm.committed sample.world ->
        gorm.key sample.schema other <> gorm.key sample.schema sample.dave)
  /\ gorm.committed
       (snd (model.Transaction sample.repo ∅
               (fun _ w0 =>
                  (Some sample.boom,
                   snd (model.Create sample.schema sample.repo ∅ sample.dave
                          w0)))
               sample.world))
     = [sample.alice; sample.bob; sample.carol; sample.dave].
Proof.
  assert (Hpool : gorm.conn (model.DB sample.repo) = gorm.Pool)
    by reflexivity.
  assert (Hf : gorm.fault sample.world = None) by reflexivity.
  assert (Hown : gorm.key sample.schema sample.dave <> 0) by discriminate.
  split; [exact Hpool |]. split; [exact Hf |]. split; [exact Hown |].
  split; [exact sample_keys_free |].
  exact (proj2 (Transaction_outer_write_survives sample.schema sample.repo ∅
                  sample.dave sample.boom sample.world
                  Hpool Hf Hown sample_keys_free)).
Defined.

(** ** Paging *)

Lemma add_where_merge (c : gorm.Cond) (limit : option Z) (offset : Z)
    (cs : gorm.Clauses) :
  gorm.add_where c (gorm.merge_limit limit offset cs)
  = gorm.merge_limit limit offset (gorm.add_where c cs).
Proof.
  unfold gorm.merge_limit, gorm.add_where. simpl.
  destruct (gorm.Limit cs), (gorm.Offset cs); reflexivity.
Qed.

Lemma add_where_paging (c : gorm.Cond) (off lim : Z) (cs : gorm.Clauses) :
  gorm.add_where c (gorm.set_limit lim (gorm.set_offset off cs))
  = gorm.set_limit lim (gorm.set_offset off (gorm.add_where c cs)).
Proof.
  unfold gorm.set_limit, gorm.set_offset. rewrite !add_where_merge.
  reflexivity.
Qed.

Lemma modifiers_paging (opts : list options.Option) (off lim : Z)
    (cs : gorm.Clauses) :
  Forall options.paging_blind opts ->
  fold_left (fun cs (m : options.Option) => m cs) opts
    (gorm.set_limit lim (gorm.set_offset off cs))
  = gorm.set_limit lim
      (gorm.set_offset off
         (fold_left (fun cs (m : options.Option) => m cs) opts cs)).
Proof.
  intros H. revert cs. induction H as [|m rest Hm _ IH]; intros cs; simpl.
  - reflexivity.
  - rewrite (proj2 (Hm lim (gorm.set_offset off cs))).
    rewrite (proj1 (Hm off cs)). apply IH.
Qed.

Lemma applyQueryOptions_paging (q : gorm.DB) (off lim : Z)
    (opts : option model.QueryOptions) :
  (forall o, opts = Some o -> Forall options.paging_blind (model.Opts o)) ->
  model.applyQueryOptions (gorm.SetLimit lim (gorm.SetOffset off q)) opts
  = gorm.SetLimit lim (gorm.SetOffset off (model.applyQueryOptions q opts)).
Proof.
  intros H. destruct opts as [o|]; [|reflexivity].
  specialize (H o eq_refl). rewrite !applyQueryOptions_some.
  unfold composition.in_order.
  assert (Hp : forall ns x,
             composition.preloads ns (gorm.SetLimit lim (gorm.SetOffset off x))
             = gorm.SetLimit lim (gorm.SetOffset off (composition.preloads ns x))).
  { intros ns. induction ns as [|n ns IH]; intros x; simpl; [reflexivity |].
    rewrite <- IH. reflexivity. }
  assert (Hm : forall x,
             composition.modifiers (model.Opts o)
               (gorm.SetLimit lim (gorm.SetOffset off x))
             = gorm.SetLimit lim
                 (gorm.SetOffset off (composition.modifiers (model.Opts o) x))).
  { induction H as [|m ms Hblind _ IH]; intros x; simpl; [reflexivity |].
    rewrite <- IH. f_equal.
    unfold gorm.with_clauses, gorm.with_stmt. simpl.
    rewrite (proj2 (Hblind lim _)), (proj1 (Hblind off _)). reflexivity. }
  rewrite Hp, Hm. unfold composition.condition.
  destruct (decide _); [reflexivity |].
  unfold gorm.Where, gorm.SetLimit, gorm.SetOffset, gorm.with_clauses,
    gorm.with_stmt. simpl. rewrite add_where_paging. reflexivity.
Qed.

(** The statement [List] sends when the modifiers are blind to the
    paging. *)
Lemma List_options_then_paging_statement {T : Type} (schema : gorm.Schema T)
    (r : model.GenericRepo) (ctx : Context) (page pageSize : Z)
    (opts : option model.QueryOptions) (w : gorm.World T) :
  1 <= page <= int_max -> 1 <= pageSize <= int_max ->
  (page - 1) * pageSize <= int_max ->
  (forall o, opts = Some o -> Forall options.paging_blind (model.Opts o)) ->
  model.List schema r ctx page pageSize opts w
  = gorm.Find schema
      (gorm.SetLimit pageSize
         (gorm.SetOffset ((page - 1) * pageSize)
            (model.applyQueryOptions (gorm.WithContext ctx (model.DB r))
               opts)))
      w.
Proof.
  intros Hpage Hsize Hoff Hblind. unfold model.List.
  rewrite (wrap_int_small (page - 1))
    by (unfold is_int, int_min, int_max in *; lia).
  rewrite (wrap_int_small ((page - 1) * pageSize))
    by (unfold is_int, int_min, int_max in *; nia).
  rewrite (applyQueryOptions_paging _ _ _ opts Hblind). reflexivity.
Qed.

(** X11. When every generic modifier is blind to the paging, it makes no
    difference that [List] sets offset and limit before it applies the
    options: it sends the statement it would send had it composed the
    options first and paged afterwards. *)
Theorem List_options_then_paging {T : Type} (schema : gorm.Schema T)
    (r : model.GenericRepo) (ctx : Context) (page pageSize : Z)
    (opts : option model.QueryOptions) (w : gorm.World T) :
  1 <= page <= int_max -> 1 <= pageSize <= int_max ->
  (page - 1) * pageSize <= int_max ->
  (forall o, opts = Some o -> Forall options.paging_blind (model.Opts o)) ->
  model.List schema r ctx page pageSize opts w
  = gorm.Find schema
      (gorm.SetLimit pageSize
         (gorm.SetOffset ((page - 1) * pageSize)
            (model.applyQueryOptions (gorm.WithContext ctx (model.DB r))
               opts)))
      w.
Proof.
  intros Hpage Hsize Hoff Hblind. unfold model.List.
  rewrite (wrap_int_small (page - 1))
    by (unfold is_int, int_min, int_max in *; lia).
  rewrite (wrap_int_small ((page - 1) * pageSize))
    by (unfold is_int, int_min, int_max in *; nia).
  rewrite (applyQueryOptions_paging _ _ _ opts Hblind). reflexivity.
Qed.

Lemma WithOrder_paging_blind (o : string) :
  options.paging_blind (options.WithOrder o).
Proof. intros n cs. split; reflexivity. Qed.

Lemma List_options_then_paging_witness :
  (1 <= 2 <= int_max) /\ (1 <= 1 <= int_max) /\ ((2 - 1) * 1 <= int_max)
  /\ (forall o, Some sample.ordered = Some o ->
                Forall options.paging_blind (model.Opts o))
  /\ model.List sample.schema sample.repo ∅ 2 1 (Some sample.ordered)
       sample.world
     = gorm.Find sample.schema
         (gorm.SetLimit 1
            (gorm.SetOffset ((2 - 1) * 1)
               (model.applyQueryOptions
                  (gorm.WithContext ∅ (model.DB sample.repo))
                  (Some sample.ordered))))
         sample.world.
Proof.
  assert (Hpage : 1 <= 2 <= int_max) by (unfold int_max; lia).
  assert (Hsize : 1 <= 1 <= int_max) by (unfold int_max; lia).
  assert (Hoff : (2 - 1) * 1 <= int_max) by (unfold int_max; lia).
  assert (Hblind : forall o, Some sample.ordered = Some o ->
                             Forall options.paging_blind (model.Opts o)).
  { intros o [= <-]. simpl. constructor; [|constructor].
    intros n cs. split; reflexivity. }
  split; [exact Hpage |]. split; [exact Hsize |]. split; [exact Hoff |].
  split; [exact Hblind |].
  exact (List_options_then_paging sample.schema sample.repo ∅ 2 1
           (Some sample.ordered) sample.world Hpage Hsize Hoff Hblind).
Defined.


Lemma applyQueryOptions_fresh (query : gorm.DB)
    (opts : option model.QueryOptions) :
  gorm.Offset (gorm.clauses (gorm.stmt query)) = None ->
  gorm.Limit (gorm.clauses (gorm.stmt query)) = None ->
  (forall o, opts = Some o -> Forall options.keeps_window (model.Opts o)) ->
  gorm.Offset (gorm.clauses (gorm.stmt (model.applyQueryOptions query opts)))
  = None
  /\ gorm.Limit (gorm.clauses (gorm.stmt (model.applyQueryOptions query opts)))
     = None.
Proof.
  intros Ho Hl Hkeep.
  destruct (applyQueryOptions_keeps_window query opts Hkeep) as [-> ->].
  split; assumption.
Qed.

(** What [List] returns on a handle without a LIMIT clause, in terms of
    the rows the composed options select when no paging is set. *)
Lemma List_rows {T : Type} (schema : gorm.Schema T) (r : model.GenericRepo)
    (ctx : Context) (page pageSize : Z) (opts : option model.QueryOptions)
    (w : gorm.World T) :
  gorm.Offset (gorm.clauses (gorm.stmt (model.DB r))) = None ->
  gorm.Limit (gorm.clauses (gorm.stmt (model.DB r))) = None ->
  1 <= page <= int_max -> 1 <= pageSize <= int_max ->
  (page - 1) * pageSize <= int_max ->
  (forall o, opts = Some o -> Forall options.paging_blind (model.Opts o)) ->
  (forall o, opts = Some o -> Forall options.keeps_window (model.Opts o)) ->
  let q := model.applyQueryOptions (gorm.WithContext ctx (model.DB r)) opts in
  fst (model.List schema r ctx page pageSize opts w)
  = match gorm.fault w with
    | Some err => inr err
    | None =>
        match gorm.visible (gorm.conn (model.DB r)) w with
        | inr err => inr err
        | inl stored =>
            if forallb (gorm.related schema) (gorm.Preloads (gorm.stmt q))
            then
              inl (map (gorm.preloaded schema (gorm.Preloads (gorm.stmt q)))
                     (take (Z.to_nat pageSize)
                        (drop (Z.to_nat ((page - 1) * pageSize))
                           (gorm.candidates schema
                              (gorm.clauses (gorm.stmt q)) stored))))
            else inr gorm.ErrUnsupportedRelation
        end
    end.
Proof.
  intros Hno Hnl Hpage Hsize Hoff Hblind Hkeep q.
  rewrite (List_options_then_paging_statement schema r ctx page pageSize opts w
             Hpage Hsize Hoff Hblind).
  fold q. unfold gorm.Find, gorm.run, gorm.eager. simpl.
  destruct (gorm.fault w); [reflexivity |].
  rewrite visible_record.
  assert (Hq : gorm.conn q = gorm.conn (model.DB r))
    by (unfold q; rewrite applyQueryOptions_conn; reflexivity).
  rewrite Hq.
  destruct (gorm.visible (gorm.conn (model.DB r)) w) as [stored|err];
    [|reflexivity].
  destruct (forallb _ _); [|reflexivity]. simpl. f_equal.
  destruct (applyQueryOptions_fresh (gorm.WithContext ctx (model.DB r))
              opts Hno Hnl Hkeep) as [Hqo Hql]. fold q in Hqo, Hql.
  destruct (paged_fresh (gorm.clauses (gorm.stmt q))
              ((page - 1) * pageSize) pageSize Hqo Hql ltac:(nia))
    as [Hpo Hpl].
  rewrite (window_page _ ((page - 1) * pageSize) pageSize _ Hpo Hpl)
    by nia.
  reflexivity.
Qed.

Lemma WithOrder_keeps_window (o : string) :
  options.keeps_window (options.WithOrder o).
Proof. intros cs. split; reflexivity. Qed.

(** X12. Pages do not overlap and leave no gap: on a handle without a
    LIMIT clause and with modifiers that are blind to the paging and leave
    offset and limit alone, pages [2k-1] and [2k] of size [n], one after
    the other, are page [k] of size [2n]. *)
Theorem List_pages_concatenate {T : Type} (schema : gorm.Schema T)
    (r : model.GenericRepo) (ctx : Context) (k n : Z)
    (opts : option model.QueryOptions) (w : gorm.World T)
    (rows1 rows2 : list T) :
  gorm.Offset (gorm.clauses (gorm.stmt (model.DB r))) = None ->
  gorm.Limit (gorm.clauses (gorm.stmt (model.DB r))) = None ->
  1 <= k -> 1 <= n -> 2 * k * n <= int_max ->
  (forall o, opts = Some o -> Forall options.paging_blind (model.Opts o)) ->
  (forall o, opts = Some o -> Forall options.keeps_window (model.Opts o)) ->
  fst (model.List schema r ctx (2 * k - 1) n opts w) = inl rows1 ->
  fst (model.List schema r ctx (2 * k) n opts w) = inl rows2 ->
  fst (model.List schema r ctx k (2 * n) opts w) = inl (rows1 ++ rows2)%list.
Proof.
  intros Hno Hnl Hk Hn Hmax Hblind Hkeep.
  assert (Hbig : 0 < int_max) by (unfold int_max; lia).
  rewrite !(List_rows schema r ctx _ _ opts w Hno Hnl)
    by (try exact Hblind; try exact Hkeep; unfold int_max in *; nia).
  destruct (gorm.fault w); [discriminate |].
  destruct (gorm.visible _ w) as [stored|err]; [|discriminate].
  destruct (forallb _ _); [|discriminate].
  intros [= <-] [= <-]. f_equal. rewrite <- map_app. f_equal.
  set (l := gorm.candidates schema _ stored).
  replace (Z.to_nat ((2 * k - 1) * n))
    with (Z.to_nat ((2 * k - 1 - 1) * n) + Z.to_nat n)%nat by nia.
  replace (Z.to_nat ((k - 1) * (2 * n)))
    with (Z.to_nat ((2 * k - 1 - 1) * n)) by (f_equal; lia).
  replace (Z.to_nat (2 * n)) with (Z.to_nat n + Z.to_nat n)%nat by lia.
  rewrite <- drop_drop. symmetry. apply take_take_drop.
Qed.

Lemma List_pages_concatenate_witness :
  gorm.Offset (gorm.clauses (gorm.stmt (model.DB sample.repo))) = None
  /\ gorm.Limit (gorm.clauses (gorm.stmt (model.DB sample.repo))) = None
  /\ 1 <= 1 /\ 1 <= 1 /\ 2 * 1 * 1 <= int_max
  /\ (forall o, Some sample.full = Some o ->
                Forall options.paging_blind (model.Opts o))
  /\ (forall o, Some sample.full = Some o ->
                Forall options.keeps_window (model.Opts o))
  /\ fst (model.List sample.schema sample.repo ∅ (2 * 1 - 1) 1
            (Some sample.full) sample.world)
     = inl [sample.loaded sample.alice]
  /\ fst (model.List sample.schema sample.repo ∅ (2 * 1) 1
            (Some sample.full) sample.world)
     = inl [sample.loaded sample.bob]
  /\ fst (model.List sample.schema sample.repo ∅ 1 (2 * 1)
            (Some sample.full) sample.world)
     = inl [sample.loaded sample.alice; sample.loaded sample.bob].
Proof.
  assert (Hno : gorm.Offset (gorm.clauses (gorm.stmt (model.DB sample.repo)))
                = None) by reflexivity.
  assert (Hnl : gorm.Limit (gorm.clauses (gorm.stmt (model.DB sample.repo)))
                = None) by reflexivity.
  assert (Hk : 1 <= 1) by lia.
  assert (Hmax : 2 * 1 * 1 <= int_max) by (unfold int_max; lia).
  assert (Hblind : forall o, Some sample.full = Some o ->
                             Forall options.paging_blind (model.Opts o)).
  { intros o [= <-]. simpl. constructor; [|constructor].
    apply WithOrder_paging_blind. }
  assert (Hkeep : forall o, Some sample.full = Some o ->
                            Forall options.keeps_window (model.Opts o)).
  { intros o [= <-]. simpl. constructor; [|constructor].
    apply WithOrder_keeps_window. }
  assert (H1 : fst (model.List sample.schema sample.repo ∅ (2 * 1 - 1) 1
                      (Some sample.full) sample.world)
               = inl [sample.loaded sample.alice])
    by (vm_compute; reflexivity).
  assert (H2 : fst (model.List sample.schema sample.repo ∅ (2 * 1) 1
                      (Some sample.full) sample.world)
               = inl [sample.loaded sample.bob])
    by (vm_compute; reflexivity).
  split; [exact Hno |]. split; [exact Hnl |].
  split; [exact Hk |]. split; [exact Hk |]. split; [exact Hmax |].
  split; [exact Hblind |]. split; [exact Hkeep |].
  split; [exact H1 |]. split; [exact H2 |].
  exact (List_pages_concatenate sample.schema sample.repo ∅ 1 1
           (Some sample.full) sample.world _ _
           Hno Hnl Hk Hk Hmax Hblind Hkeep H1 H2).
Defined.

(** X13. [Count] counts what [List] lists: on a handle without a LIMIT
    clause, with modifiers that are blind to the paging and leave offset
    and limit alone, and a store whose ordering only permutes the rows,
    the first page holds as many rows as [Count] reports, up to the page
    size. *)
Theorem Count_measures_List {T : Type} (schema : gorm.Schema T)
    (r : model.GenericRepo) (ctx : Context) (pageSize : Z)
    (opts : option model.QueryOptions) (w : gorm.World T)
    (count : Z) (rows : list T) :
  gorm.Offset (gorm.clauses (gorm.stmt (model.DB r))) = None ->
  gorm.Limit (gorm.clauses (gorm.stmt (model.DB r))) = None ->
  1 <= pageSize <= int_max ->
  (forall o, opts = Some o -> Forall options.paging_blind (model.Opts o)) ->
  (forall o, opts = Some o -> Forall options.keeps_window (model.Opts o)) ->
  (forall orders l, gorm.order_by schema orders l ≡ₚ l) ->
  fst (model.Count schema r ctx opts w) = inl count ->
  fst (model.List schema r ctx 1 pageSize opts w) = inl rows ->
  Z.of_nat (length rows) = Z.min count pageSize.
Proof.
  intros Hno Hnl Hsize Hblind Hkeep Hperm.
  rewrite (List_rows schema r ctx _ _ opts w Hno Hnl)
    by (try exact Hblind; try exact Hkeep; unfold int_max in *; lia).
  unfold model.Count. rewrite gorm_Count_result.
  rewrite applyQueryOptions_conn. simpl.
  destruct (gorm.fault w); [discriminate |].
  destruct (gorm.visible _ w) as [stored|err]; [|discriminate].
  destruct (forallb _ _); [|intros _; discriminate].
  assert (Hcs : gorm.clauses (gorm.stmt
                  (model.applyQueryOptions
                     (gorm.SetModel (gorm.WithContext ctx (model.DB r))) opts))
                = gorm.clauses (gorm.stmt
                    (model.applyQueryOptions
                       (gorm.WithContext ctx (model.DB r)) opts))).
  { destruct opts as [o|]; [|reflexivity].
    rewrite !applyQueryOptions_clauses. reflexivity. }
  rewrite Hcs.
  destruct (applyQueryOptions_fresh (gorm.WithContext ctx (model.DB r))
              opts Hno Hnl Hkeep) as [Hqo Hql].
  unfold gorm.counted. rewrite Hqo, Hql. simpl.
  intros [= <-] [= <-].
  rewrite length_map, length_take.
  replace ((1 - 1) * pageSize) with 0 by lia.
  change (Z.to_nat 0) with 0%nat. rewrite drop_0.
  unfold gorm.candidates. rewrite (Hperm _ _). lia.
Qed.

Lemma Count_measures_List_witness :
  gorm.Offset (gorm.clauses (gorm.stmt (model.DB sample.repo))) = None
  /\ gorm.Limit (gorm.clauses (gorm.stmt (model.DB sample.repo))) = None
  /\ (1 <= 2 <= int_max)
  /\ (forall o, Some sample.full = Some o ->
                Forall options.paging_blind (model.Opts o))
  /\ (forall o, Some sample.full = Some o ->
                Forall options.keeps_window (model.Opts o))
  /\ (forall orders l, gorm.order_by sample.schema orders l ≡ₚ l)
  /\ fst (model.Count sample.schema sample.repo ∅ (Some sample.full)
            sample.world) = inl 3
  /\ fst (model.List sample.schema sample.repo ∅ 1 2 (Some sample.full)
            sample.world)
     = inl [sample.loaded sample.alice; sample.loaded sample.bob]
  /\ Z.of_nat (length [sample.loaded sample.alice; sample.loaded sample.bob])
     = Z.min 3 2.
Proof.
  assert (Hno : gorm.Offset (gorm.clauses (gorm.stmt (model.DB sample.repo)))
                = None) by reflexivity.
  assert (Hnl : gorm.Limit (gorm.clauses (gorm.stmt (model.DB sample.repo)))
                = None) by reflexivity.
  assert (Hsize : 1 <= 2 <= int_max) by (unfold int_max; lia).
  assert (Hblind : forall o, Some sample.full = Some o ->
                             Forall options.paging_blind (model.Opts o)).
  { intros o [= <-]. simpl. constructor; [|constructor].
    apply WithOrder_paging_blind. }
  assert (Hkeep : forall o, Some sample.full = Some o ->
                            Forall options.keeps_window (model.Opts o)).
  { intros o [= <-]. simpl. constructor; [|constructor].
    apply WithOrder_keeps_window. }
  assert (Hperm : forall orders l, gorm.order_by sample.schema orders l ≡ₚ l)
    by (intros orders l; reflexivity).
  assert (Hc : fst (model.Count sample.schema sample.repo ∅ (Some sample.full)
                      sample.world) = inl 3) by (vm_compute; reflexivity).
  assert (Hl : fst (model.List sample.schema sample.repo ∅ 1 2
                      (Some sample.full) sample.world)
               = inl [sample.loaded sample.alice; sample.loaded sample.bob])
    by (vm_compute; reflexivity).
  split; [exact Hno |]. split; [exact Hnl |]. split; [exact Hsize |].
  split; [exact Hblind |]. split; [exact Hkeep |]. split; [exact Hperm |].
  split; [exact Hc |]. split; [exact Hl |].
  exact (Count_measures_List sample.schema sample.repo ∅ 2
           (Some sample.full) sample.world 3 _
           Hno Hnl Hsize Hblind Hkeep Hperm Hc Hl).
Defined.

Lemma negative_offset_dropped (cs : gorm.Clauses) (off n : Z) :
  gorm.Offset cs = None -> gorm.Limit cs = None -> off < 0 ->
  gorm.set_limit n (gorm.set_offset off cs)
  = gorm.set_limit n (gorm.set_offset 0 cs).
Proof.
  intros Ho Hl Hoff. unfold gorm.set_limit, gorm.set_offset, gorm.merge_limit.
  rewrite Ho, Hl. simpl.
  rewrite (bool_decide_eq_false_2 (0 = 0 /\ 0 < off))
    by (intros [_ H]; lia).
  reflexivity.
Qed.

(** X14. [List] does not clamp the page, and the store drops the negative
    offset this gives: on a handle without a LIMIT clause, a page of 0 or
    less, with a page size from 1 on, is answered exactly as page 1 is. *)
Theorem List_page_below_one {T : Type} (schema : gorm.Schema T)
    (r : model.GenericRepo) (ctx : Context) (page pageSize : Z)
    (opts : option model.QueryOptions) (w : gorm.World T) :
  gorm.Offset (gorm.clauses (gorm.stmt (model.DB r))) = None ->
  gorm.Limit (gorm.clauses (gorm.stmt (model.DB r))) = None ->
  page <= 0 -> int_min <= page - 1 -> 1 <= pageSize <= int_max ->
  int_min <= (page - 1) * pageSize ->
  model.List schema r ctx page pageSize opts w
  = model.List schema r ctx 1 pageSize opts w.
Proof.
  intros Hno Hnl Hpage Hlow Hsize Hmin. unfold model.List.
  rewrite (wrap_int_small (page - 1))
    by (unfold is_int, int_min, int_max in *; lia).
  rewrite (wrap_int_small ((page - 1) * pageSize))
    by (unfold is_int, int_min, int_max in *; nia).
  rewrite (wrap_int_small (1 - 1))
    by (unfold is_int, int_min, int_max; lia).
  rewrite (wrap_int_small ((1 - 1) * pageSize))
    by (unfold is_int, int_min, int_max in *; lia).
  replace ((1 - 1) * pageSize) with 0 by lia.
  unfold gorm.SetLimit, gorm.SetOffset, gorm.with_clauses, gorm.with_stmt.
  simpl.
  rewrite (negative_offset_dropped _ ((page - 1) * pageSize) pageSize Hno Hnl)
    by nia.
  reflexivity.
Qed.

Lemma List_page_below_one_witness :
  gorm.Offset (gorm.clauses (gorm.stmt (model.DB sample.repo))) = None
  /\ gorm.Limit (gorm.clauses (gorm.stmt (model.DB sample.repo))) = None
  /\ 0 <= 0 /\ int_min <= 0 - 1 /\ (1 <= 2 <= int_max)
  /\ int_min <= (0 - 1) * 2
  /\ fst (model.List sample.schema sample.repo ∅ 1 2 (Some sample.full)
            sample.world)
     = inl [sample.loaded sample.alice; sample.loaded sample.bob]
  /\ model.List sample.schema sample.repo ∅ 0 2 (Some sample.full)
       sample.world
     = model.List sample.schema sample.repo ∅ 1 2 (Some sample.full)
         sample.world.
Proof.
  assert (Hno : gorm.Offset (gorm.clauses (gorm.stmt (model.DB sample.repo)))
                = None) by reflexivity.
  assert (Hnl : gorm.Limit (gorm.clauses (gorm.stmt (model.DB sample.repo)))
                = None) by reflexivity.
  assert (Hpage : 0 <= 0) by lia.
  assert (Hlow : int_min <= 0 - 1) by (unfold int_min; lia).
  assert (Hsize : 1 <= 2 <= int_max) by (unfold int_max; lia).
  assert (Hmin : int_min <= (0 - 1) * 2) by (unfold int_min; lia).
  split; [exact Hno |]. split; [exact Hnl |]. split; [exact Hpage |].
  split; [exact Hlow |]. split; [exact Hsize |]. split; [exact Hmin |].
  split; [vm_compute; reflexivity |].
  exact (List_page_below_one sample.schema sample.repo ∅ 0 2
           (Some sample.full) sample.world Hno Hnl Hpage Hlow Hsize Hmin).
Defined.

(** ** The logger *)

Lemma names_elem_of (name : string) (outputs : list string) :
  logger.names name outputs = true <-> name ∈ outputs.
Proof.
  induction outputs as [|output rest IH]; simpl.
  - split; [discriminate | intros H; inversion H].
  - destruct (decide (output = name)) as [->|Hne].
    + rewrite bool_decide_eq_true_2 by reflexivity.
      split; [intros _; left | reflexivity].
    + rewrite bool_decide_eq_false_2 by exact Hne. rewrite IH.
      split; [intros H; right; exact H |].
      intros H. inversion H; subst; [contradiction | assumption].
Qed.

(** X15. [Setup] never leaves the log without a sink. The log file is
    written exactly when the outputs name [file]; standard output is
    written when they name [console], and also whenever they do not name
    [file], be the list empty or made of names [Setup] does not know. *)
Theorem Setup_sinks {LogFormat : Type} `{EqDecision LogFormat}
    (LogFormatJSON : LogFormat) (config : logger.LogConfig LogFormat) :
  let w := logger.writer (logger.Setup LogFormatJSON config) in
  (logger.reaches_file w = true <-> "file" ∈ logger.Output config)
  /\ (logger.reaches_stdout w = true
      <-> "console" ∈ logger.Output config \/ "file" ∉ logger.Output config)
  /\ (logger.reaches_stdout w = true \/ logger.reaches_file w = true).
Proof.
  intros w. subst w. unfold logger.Setup. cbv zeta.
  cbn [logger.writer].
  rewrite <- !names_elem_of.
  destruct (logger.Output config) as [|o rest] eqn:Hout.
  - simpl. split; [split; discriminate |].
    split; [|left; reflexivity].
    split; [intros _; right; discriminate | reflexivity].
  - rewrite bool_decide_eq_false_2 by discriminate.
    destruct (logger.names "console" (o :: rest)),
             (logger.names "file" (o :: rest)); simpl;
      (split; [split; congruence |]);
      (split; [split; [auto | try reflexivity; intros [?|?]; congruence]
              | auto]).
Qed.

(** X16. The level string is read exactly: [debug], [warn] and [error]
    select their levels and every other string, [info] included, selects
    the info level; the caller is reported only at the debug level. *)
Theorem Setup_level {LogFormat : Type} `{EqDecision LogFormat}
    (LogFormatJSON : LogFormat) (config : logger.LogConfig LogFormat) :
  let opts := logger.options (logger.Setup LogFormatJSON config) in
  logger.OptLevel opts = logger.parseLogLevel (logger.CfgLevel config)
  /\ (logger.OptLevel opts = logger.InfoLevel
      <-> logger.CfgLevel config <> "debug"
          /\ logger.CfgLevel config <> "warn"
          /\ logger.CfgLevel config <> "error")
  /\ (logger.ReportCaller opts = true <-> logger.CfgLevel config = "debug").
Proof.
  intros opts. subst opts. unfold logger.Setup. cbv zeta.
  cbn [logger.options logger.OptLevel logger.ReportCaller].
  split; [reflexivity |].
  unfold logger.parseLogLevel.
  set (l := logger.CfgLevel config).
  destruct (decide (l = "debug")) as [Hd|Hd].
  { rewrite (bool_decide_eq_true_2 _ Hd). rewrite Hd.
    split; [split; [discriminate | intros [H _]; contradiction] |].
    split; reflexivity. }
  rewrite (bool_decide_eq_false_2 _ Hd).
  destruct (decide (l = "info")) as [Hi|Hi].
  { rewrite (bool_decide_eq_true_2 _ Hi). rewrite Hi.
    split; [split; [intros _; repeat split; discriminate | reflexivity] |].
    split; discriminate. }
  rewrite (bool_decide_eq_false_2 _ Hi).
  destruct (decide (l = "warn")) as [Hw|Hw].
  { rewrite (bool_decide_eq_true_2 _ Hw).
    split; [split; [discriminate | intros (_ & H & _); contradiction] |].
    split; [discriminate | intros H; contradiction]. }
  rewrite (bool_decide_eq_false_2 _ Hw).
  destruct (decide (l = "error")) as [He|He].
  { rewrite (bool_decide_eq_true_2 _ He).
    split; [split; [discriminate | intros (_ & _ & H); contradiction] |].
    split; [discriminate | intros H; contradiction]. }
  rewrite (bool_decide_eq_false_2 _ He).
  split; [split; [intros _; auto | reflexivity] |].
  split; [discriminate | intros H; contradiction].
Qed.

(** X17. [Setup] chooses the formatter [parseLogFormat] would choose,
    whatever the two format constants are: JSON for the JSON format and
    text for everything else. *)
Theorem Setup_formatter {LogFormat : Type} `{EqDecision LogFormat}
    (LogFormatJSON LogFormatText : LogFormat)
    (config : logger.LogConfig LogFormat) :
  let opts := logger.options (logger.Setup LogFormatJSON config) in
  logger.OptFormatter opts
  = logger.parseLogFormat LogFormatJSON LogFormatText (logger.Format config)
  /\ (logger.OptFormatter opts = logger.JSONFormatter
      <-> logger.Format config = LogFormatJSON).
Proof.
  intros opts. subst opts. unfold logger.Setup, logger.parseLogFormat.
  cbv zeta. cbn [logger.options logger.OptFormatter].
  destruct (decide (logger.Format config = LogFormatJSON)) as [Hj|Hj].
  - rewrite !(bool_decide_eq_true_2 _ Hj). split; [reflexivity |].
    split; [intros _; exact Hj | reflexivity].
  - rewrite !(bool_decide_eq_false_2 _ Hj).
    split; [destruct (bool_decide _); reflexivity |].
    split; [discriminate | intros H; contradiction].
Qed.

(** X18. [LogError] keeps the entry a sequence of key/value pairs: the
    error comes first under [err], the caller's pairs come last and
    untouched, and between them stand at most a stack trace and, exactly
    when the error wraps a cause, that cause under [original_err]. With
    stack traces off, domain errors and other errors are logged alike. *)
Theorem LogError_fields (showStackTrace : bool) (verbose : error -> string)
    (formatted : error -> option string) (msg : string) (err : error)
    (kvs : list any) :
  let cause :=
    match Unwrap err with
    | Some originalErr => [Str "original_err"; Str (error_Error originalErr)]
    | None => []
    end in
  (exists text trace,
      logger.LogError showStackTrace verbose formatted msg err kvs
      = (msg, ([Str "err"; Str text] ++ trace ++ cause ++ kvs)%list)
      /\ (trace = [] \/ exists t, trace = [Str "stack_trace"; Str t])
      /\ (showStackTrace = false -> text = error_Error err /\ trace = []))
  /\ Nat.even (length (snd (logger.LogError showStackTrace verbose formatted
                              msg err kvs)))
     = Nat.even (length kvs).
Proof.
  intros cause. subst cause. split.
  - exists (if logger.is_app_error err && showStackTrace
            then verbose err else error_Error err).
    exists (if negb (logger.is_app_error err) && showStackTrace
            then match formatted err with
                 | Some t =>
                     [Str "stack_trace";
                      Str (String "010"%char EmptyString +:+ t)]
                 | None => []
                 end
            else []).
    unfold logger.LogError.
    destruct (logger.is_app_error err), showStackTrace,
             (Unwrap err) as [c|]; simpl;
      try destruct (formatted err) as [t|]; simpl;
      (split; [reflexivity |]);
      (split; [first [left; reflexivity | right; eexists; reflexivity]
              | first [discriminate | intros _; split; reflexivity]]).
  - unfold logger.LogError.
    destruct (logger.is_app_error err), showStackTrace,
             (Unwrap err) as [c|]; simpl;
      try destruct (formatted err) as [t|]; simpl; reflexivity.
Qed.

(** ** The condition and the id are always in force *)










(** The empty string as id adds no condition: such a [Get] returns the
    first stored row, which need not have that id. *)
Example Get_by_empty_string :
  fst (model.Get sample.schema sample.specs sample.repo ∅ (Str "") None
         sample.world) = inl sample.alice.
Proof. vm_compute. reflexivity. Qed.
